(** * To-do list application: recycle-bin lifecycle

    A shallow embedding of the Express server (server.js), of the
    localStorage module (js/storage.js) and of the parts of the browser
    application (js/app.js) that drive the recycle bin, followed by the
    properties of the recycle-bin lifecycle.

    Conventions.
    - A JavaScript object used as a record is a finite map from property
      names to JSON values ([gmap string json]); the order of the keys,
      which only matters for the text written to disk, is not modelled.
    - An array is a [list]; [splice(i, 1)] is [delete i].
    - The two data files of the server (and the two localStorage keys of
      the storage module) hold the arrays themselves rather than their
      JSON text: [JSON.parse (JSON.stringify v) = v] on the values that
      occur.
    - The clock ([new Date()]) and the identifier generator ([uuidv4()])
      are inputs of the operation that consults them.
    - Instants are integers, milliseconds since the epoch.  JSON numbers
      are restricted to integers.
    - A string is the sequence of bytes of its UTF-8 encoding.
    - What the language leaves to the machine the code runs on (its time
      zone, the reading of date strings outside the standard format) is
      an input too, the [host]. *)

From stdpp Require Import gmap strings list fin_maps pretty.
From Stdlib Require Import ZArith Ascii.

Set Warnings "-register-all".
Local Open Scope string_scope.
Local Open Scope list_scope.
Local Open Scope Z_scope.

(** ** JSON values and JavaScript coercions *)

Module Json.

Inductive json : Type :=
| JNull
| JBool (b : bool)
| JNum (n : Z)
| JStr (s : string)
| JArr (l : list json)
| JObj (l : list (string * json)).

(** ToBoolean; an absent property reads as [undefined], which is falsy. *)
Definition ToBoolean (v : option json) : bool :=
  match v with
  | None => false
  | Some JNull => false
  | Some (JBool b) => b
  | Some (JNum n) => negb (n =? 0)
  | Some (JStr s) => negb (String.eqb s "")
  | Some (JArr _) => true
  | Some (JObj _) => true
  end.

(** [v === s] for a string [s]: strict equality never coerces. *)
Definition strict_eq_string (v : option json) (s : string) : bool :=
  match v with
  | Some (JStr s') => String.eqb s' s
  | _ => false
  end.

End Json.
Export Json.

(** A parsed JSON object. *)
Abbreviation task := (gmap string json).

(** ** The Date built-in *)

Module JSDate.

Definition msPerDay : Z := 86400000.

(** The machine the code runs on, as far as dates go: the offset of its
    local time from UTC at an instant ([LocalTZA_utc]) and at a local
    time ([LocalTZA_local]), in milliseconds; what its engine makes of a
    date string that is not in the complete standard form
    ([parse_other]) and of an array or an object given for a date
    ([date_of_object]), [None] being the Invalid Date. *)
Record host : Type := mkHost {
  LocalTZA_utc : Z → Z;
  LocalTZA_local : Z → Z;
  parse_other : string → option Z;
  date_of_object : json → option Z
}.

(** The range of valid time values. *)
Definition valid_time (t : Z) : Prop :=
  -8640000000000000 ≤ t ≤ 8640000000000000.

(** ECMAScript TimeClip. *)
Definition TimeClip (t : Z) : option Z :=
  if Z.abs t <=? 8640000000000000 then Some t else None.

(** Proleptic Gregorian calendar, days counted from 1970-01-01. *)
Definition civil_from_days (z : Z) : Z * Z * Z :=
  let z := z + 719468 in
  let era := z / 146097 in
  let doe := z - era * 146097 in
  let yoe := (doe - doe / 1460 + doe / 36524 - doe / 146096) / 365 in
  let doy := doe - (365 * yoe + yoe / 4 - yoe / 100) in
  let mp := (5 * doy + 2) / 153 in
  let d := doy - (153 * mp + 2) / 5 + 1 in
  let m := if mp <? 10 then mp + 3 else mp - 9 in
  let y := yoe + era * 400 in
  (if m <=? 2 then y + 1 else y, m, d).

Definition days_from_civil (y m d : Z) : Z :=
  let y := if m <=? 2 then y - 1 else y in
  let era := y / 400 in
  let yoe := y - era * 400 in
  let doy := (153 * (if 2 <? m then m - 3 else m + 9) + 2) / 5 + d - 1 in
  let doe := yoe * 365 + yoe / 4 - yoe / 100 + doy in
  era * 146097 + doe - 719468.

Definition is_leap (y : Z) : bool :=
  ((y mod 4 =? 0) && negb (y mod 100 =? 0)) || (y mod 400 =? 0).

Definition days_in_month (y m : Z) : Z :=
  if m =? 2 then (if is_leap y then 29 else 28)
  else if (m =? 4) || (m =? 6) || (m =? 9) || (m =? 11) then 30
  else 31.

Definition digit (d : Z) : ascii := ascii_of_nat (48 + Z.to_nat d).

Fixpoint digits (w : nat) (n : Z) (acc : string) : string :=
  match w with
  | O => acc
  | S w' => digits w' (n / 10) (String (digit (n mod 10)) acc)
  end.

Definition pad (w : nat) (n : Z) : string := digits w n "".

(** [Date.prototype.toISOString] of a valid time value:
    YYYY-MM-DDTHH:mm:ss.sssZ, with a signed six-digit year outside
    0..9999. *)
Definition toISOString (t : Z) : string :=
  let day := t / msPerDay in
  let tod := t mod msPerDay in
  let '(y, m, d) := civil_from_days day in
  let year :=
    if (0 <=? y) && (y <=? 9999) then pad 4 y
    else (if y <? 0 then "-" else "+") +:+ pad 6 (Z.abs y) in
  year +:+ "-" +:+ pad 2 m +:+ "-" +:+ pad 2 d +:+ "T" +:+
  pad 2 (tod / 3600000) +:+ ":" +:+ pad 2 (tod / 60000 mod 60) +:+ ":" +:+
  pad 2 (tod / 1000 mod 60) +:+ "." +:+ pad 3 (tod mod 1000) +:+ "Z".

Definition digit_val (c : ascii) : option Z :=
  let n := Z.of_nat (nat_of_ascii c) in
  if (48 <=? n) && (n <=? 57) then Some (n - 48) else None.

Fixpoint read_digits (w : nat) (acc : Z) (s : string) : option (Z * string) :=
  match w with
  | O => Some (acc, s)
  | S w' =>
      match s with
      | String c s' =>
          match digit_val c with
          | Some d => read_digits w' (10 * acc + d) s'
          | None => None
          end
      | EmptyString => None
      end
  end.

Definition expect (c : ascii) (s : string) : option string :=
  match s with
  | String c' s' => if Ascii.eqb c c' then Some s' else None
  | EmptyString => None
  end.

Definition read_year (s : string) : option (Z * string) :=
  match s with
  | String "+" s' => read_digits 6 0 s'
  | String "-" s' =>
      match read_digits 6 0 s' with
      | Some (y, r) => if y =? 0 then None else Some (- y, r)
      | None => None
      end
  | _ => read_digits 4 0 s
  end.

(** The reading the language fixes for the complete UTC form of its
    date-time string format, YYYY-MM-DDTHH:mm:ss.sssZ with a calendar
    date and a time of day, the form [toISOString] writes; [None] for
    every other string. *)
Definition Date_parse_full (s : string) : option Z :=
  '(y, s) ← read_year s;
  s ← expect "-" s;
  '(m, s) ← read_digits 2 0 s;
  s ← expect "-" s;
  '(d, s) ← read_digits 2 0 s;
  s ← expect "T" s;
  '(hh, s) ← read_digits 2 0 s;
  s ← expect ":" s;
  '(mm, s) ← read_digits 2 0 s;
  s ← expect ":" s;
  '(ss, s) ← read_digits 2 0 s;
  s ← expect "." s;
  '(ms, s) ← read_digits 3 0 s;
  s ← expect "Z" s;
  if String.eqb s ""
     && (1 <=? m) && (m <=? 12) && (1 <=? d) && (d <=? days_in_month y m)
     && (hh <=? 23) && (mm <=? 59) && (ss <=? 59)
  then TimeClip (days_from_civil y m d * msPerDay
                 + hh * 3600000 + mm * 60000 + ss * 1000 + ms)
  else None.

(** [Date.parse]: the reading of the complete form where it has one, and
    the engine's reading otherwise (shorter forms, offsets, days past the
    end of a month, legacy formats). *)
Definition Date_parse (h : host) (s : string) : option Z :=
  match Date_parse_full s with
  | Some t => Some t
  | None => parse_other h s
  end.

(** [new Date(v)] for a JSON value [v]; [None] is the Invalid Date.
    A number is a time value, [null] and booleans convert to numbers, a
    string is parsed; an array or an object is first converted to a
    string, which is left to the engine. *)
Definition Date_of_json (h : host) (v : json) : option Z :=
  match v with
  | JNull => Some 0
  | JBool b => Some (if b then 1 else 0)
  | JNum n => TimeClip n
  | JStr s => Date_parse h s
  | JArr _ | JObj _ => date_of_object h v
  end.

(** [new Date(o.p)] where the property may be absent ([undefined]). *)
Definition new_Date (h : host) (v : option json) : option Z :=
  v ≫= Date_of_json h.

(** [d.setDate(d.getDate() - 30)] on the date [d] of time value [t]: the
    same wall-clock time of the host's local calendar thirty days
    earlier.  The local time of [t] is moved back thirty days of 24 hours
    and read as an instant with the offset in force at that local time;
    [None] when the result is out of range (the date is then invalid). *)
Definition setDate_minus_30 (h : host) (t : Z) : option Z :=
  let local := t + LocalTZA_utc h t in
  let newDate := local - 30 * msPerDay in
  TimeClip (newDate - LocalTZA_local h newDate).

End JSDate.
Export JSDate.

(** ** The server (server.js) *)

Module Server.

(** The contents of data/todos.json and data/recycled.json. *)
Record state : Type := mkState {
  TODOS_FILE : list task;
  RECYCLED_FILE : list task
}.

(** Both files are created holding the empty array. *)
Definition init : state := mkState [] [].

Definition readTodos (s : state) : list task := TODOS_FILE s.
Definition writeTodos (todos : list task) (s : state) : state :=
  mkState todos (RECYCLED_FILE s).
Definition readRecycled (s : state) : list task := RECYCLED_FILE s.
Definition writeRecycled (recycled : list task) (s : state) : state :=
  mkState (TODOS_FILE s) recycled.

(** What a handler sends: [res.status(c).json(v)], the status being 200
    when it is not set. *)
Inductive response : Type :=
| Json_task (status : Z) (t : task)
| Json_list (status : Z) (l : list task)
| Json_error (status : Z) (error : string)
| Json_cleanup (status : Z) (removedCount : Z).

Definition status_of (r : response) : Z :=
  match r with
  | Json_task c _ | Json_list c _ | Json_error c _ | Json_cleanup c _ => c
  end.

(** The callback [todo => todo.id === id]. *)
Definition has_id (id : string) (todo : task) : bool :=
  strict_eq_string (todo !! "id") id.

(** [l.findIndex(todo => todo.id === id)], returned with the element at
    that index; [None] stands for -1. *)
Definition findIndex (id : string) (l : list task) : option (nat * task) :=
  list_find (λ todo, has_id id todo) l.

(** What the request takes from outside the store: the identifier
    [uuidv4()] would return, the reading of the clock, and the host the
    server runs on. *)
Record env : Type := mkEnv { uuid : string; now : Z; server : host }.

(** app.get('/api/todos') *)
Definition get_todos (s : state) : state * response :=
  (s, Json_list 200 (readTodos s)).

(** app.post('/api/todos') *)
Definition post_todos (e : env) (body : task) (s : state) : state * response :=
  let todos := readTodos s in
  let newTodo :=
    <["createdAt" := JStr (toISOString (now e))]>
      (body ∪ {["id" := JStr (uuid e)]}) in
  let todos := todos ++ [newTodo] in
  (writeTodos todos s, Json_task 201 newTodo).

(** app.put('/api/todos/:id') *)
Definition put_todo (e : env) (id : string) (body : task) (s : state)
  : state * response :=
  let todos := readTodos s in
  match findIndex id todos with
  | None => (s, Json_error 404 "Todo not found")
  | Some (todoIndex, todo) =>
      let updated := <["updatedAt" := JStr (toISOString (now e))]> (body ∪ todo) in
      let todos := <[todoIndex := updated]> todos in
      (writeTodos todos s, Json_task 200 updated)
  end.

(** app.patch('/api/todos/:id/toggle') *)
Definition patch_toggle (e : env) (id : string) (s : state) : state * response :=
  let todos := readTodos s in
  match findIndex id todos with
  | None => (s, Json_error 404 "Todo not found")
  | Some (todoIndex, todo) =>
      let todo := <["completed" := JBool (negb (ToBoolean (todo !! "completed")))]> todo in
      let todo := <["updatedAt" := JStr (toISOString (now e))]> todo in
      let todos := <[todoIndex := todo]> todos in
      (writeTodos todos s, Json_task 200 todo)
  end.

(** app.patch('/api/todos/:id/recycle') *)
Definition patch_recycle (e : env) (id : string) (s : state) : state * response :=
  let todos := readTodos s in
  let recycled := readRecycled s in
  match findIndex id todos with
  | None => (s, Json_error 404 "Todo not found")
  | Some (todoIndex, todo) =>
      let todos := delete todoIndex todos in
      let removedTodo := <["deletedAt" := JStr (toISOString (now e))]> todo in
      let recycled := recycled ++ [removedTodo] in
      (writeRecycled recycled (writeTodos todos s), Json_task 200 removedTodo)
  end.

(** app.get('/api/todos/recycled') *)
Definition get_recycled (s : state) : state * response :=
  (s, Json_list 200 (readRecycled s)).

(** app.patch('/api/todos/:id/restore') *)
Definition patch_restore (e : env) (id : string) (s : state) : state * response :=
  let todos := readTodos s in
  let recycled := readRecycled s in
  match findIndex id recycled with
  | None => (s, Json_error 404 "Recycled todo not found")
  | Some (recycledIndex, todo) =>
      let recycled := delete recycledIndex recycled in
      let restoredTodo := delete "deletedAt" todo in
      let restoredTodo := <["restoredAt" := JStr (toISOString (now e))]> restoredTodo in
      let todos := todos ++ [restoredTodo] in
      (writeRecycled recycled (writeTodos todos s), Json_task 200 restoredTodo)
  end.

(** app.delete('/api/todos/:id') *)
Definition delete_todo (id : string) (s : state) : state * response :=
  let recycled := readRecycled s in
  match findIndex id recycled with
  | None => (s, Json_error 404 "Recycled todo not found")
  | Some (recycledIndex, deletedTodo) =>
      let recycled := delete recycledIndex recycled in
      (writeRecycled recycled s, Json_task 200 deletedTodo)
  end.

(** The filter callback of the cleanup handler:
    [new Date(todo.deletedAt) >= thirtyDaysAgo]; a comparison with the
    Invalid Date is false. *)
Definition cleanup_keeps (h : host) (thirtyDaysAgo : option Z) (todo : task)
  : bool :=
  match new_Date h (todo !! "deletedAt"), thirtyDaysAgo with
  | Some deletedAt, Some cutoff => cutoff <=? deletedAt
  | _, _ => false
  end.

(** app.delete('/api/todos/cleanup') *)
Definition delete_cleanup (e : env) (s : state) : state * response :=
  let recycled := readRecycled s in
  let thirtyDaysAgo := setDate_minus_30 (server e) (now e) in
  let filteredRecycled :=
    filter (λ todo, cleanup_keeps (server e) thirtyDaysAgo todo) recycled in
  let removedCount := Z.of_nat (length recycled) - Z.of_nat (length filteredRecycled) in
  (writeRecycled filteredRecycled s, Json_cleanup 200 removedCount).

(** *** Routing *)

Inductive method : Type := GET | POST | PUT | PATCH | DELETE.

Definition method_eqb (a b : method) : bool :=
  match a, b with
  | GET, GET | POST, POST | PUT, PUT | PATCH, PATCH | DELETE, DELETE => true
  | _, _ => false
  end.

(** A route path, one segment per component: a literal or a named
    parameter ([:id]). *)
Inductive segment : Type := Lit (s : string) | Param (name : string).

(** A request: method, path split at the slashes, parsed JSON body
    (the empty object when there is none). *)
Record request : Type := mkRequest {
  req_method : method;
  req_path : list string;
  req_body : task
}.

(** A parameter matches one non-empty path component. *)
Fixpoint match_path (pat : list segment) (path : list string)
  : option (gmap string string) :=
  match pat, path with
  | [], [] => Some ∅
  | Lit l :: pat', x :: path' =>
      if String.eqb l x then match_path pat' path' else None
  | Param name :: pat', x :: path' =>
      if String.eqb x "" then None else <[name := x]> <$> match_path pat' path'
  | _, _ => None
  end.

(** [req.params.name] *)
Definition param (params : gmap string string) (name : string) : string :=
  default "" (params !! name).

Record route : Type := mkRoute {
  route_method : method;
  route_path : list segment;
  route_handler : env → gmap string string → task → state → state * response
}.

(** The routes in the order in which server.js registers them. *)
Definition routes : list route :=
  [ mkRoute GET [Lit "api"; Lit "todos"]
      (λ _ _ _ s, get_todos s);
    mkRoute POST [Lit "api"; Lit "todos"]
      (λ e _ body s, post_todos e body s);
    mkRoute PUT [Lit "api"; Lit "todos"; Param "id"]
      (λ e params body s, put_todo e (param params "id") body s);
    mkRoute PATCH [Lit "api"; Lit "todos"; Param "id"; Lit "toggle"]
      (λ e params _ s, patch_toggle e (param params "id") s);
    mkRoute PATCH [Lit "api"; Lit "todos"; Param "id"; Lit "recycle"]
      (λ e params _ s, patch_recycle e (param params "id") s);
    mkRoute GET [Lit "api"; Lit "todos"; Lit "recycled"]
      (λ _ _ _ s, get_recycled s);
    mkRoute PATCH [Lit "api"; Lit "todos"; Param "id"; Lit "restore"]
      (λ e params _ s, patch_restore e (param params "id") s);
    mkRoute DELETE [Lit "api"; Lit "todos"; Param "id"]
      (λ _ params _ s, delete_todo (param params "id") s);
    mkRoute DELETE [Lit "api"; Lit "todos"; Lit "cleanup"]
      (λ e _ _ s, delete_cleanup e s) ].

(** Express runs the first registered route whose method and path match;
    no handler of this application passes control on ([next] is never
    called).  A request that matches no route here falls through to the
    static file middleware and the final 404. *)
Fixpoint dispatch (rs : list route) (e : env) (req : request) (s : state)
  : state * response :=
  match rs with
  | [] => (s, Json_error 404 "Not Found")
  | r :: rs' =>
      if method_eqb (route_method r) (req_method req) then
        match match_path (route_path r) (req_path req) with
        | Some params => route_handler r e params (req_body req) s
        | None => dispatch rs' e req s
        end
      else dispatch rs' e req s
  end.

Definition app (e : env) (req : request) (s : state) : state * response :=
  dispatch routes e req s.

End Server.

(** ** The localStorage module (js/storage.js) *)

Module Storage.

(** localStorage, each item holding the array its JSON text denotes. *)
Abbreviation localStorage := (gmap string (list task)).

Definition TASKS_STORAGE_KEY : string := "todoTasks".
Definition RECYCLED_TASKS_KEY : string := "recycledTasks".

Definition saveTasks (tasks : list task) (ls : localStorage) : localStorage :=
  <[TASKS_STORAGE_KEY := tasks]> ls.

Definition getTasks (ls : localStorage) : list task :=
  default [] (ls !! TASKS_STORAGE_KEY).

Definition getRecycledTasks (ls : localStorage) : list task :=
  default [] (ls !! RECYCLED_TASKS_KEY).

(** The callback [task => task.id === taskId]. *)
Definition has_id (taskId : string) (t : task) : bool :=
  strict_eq_string (t !! "id") taskId.

(** The second declaration of [deleteTask], the one in force: it moves
    the task to the recycle bin.  Returns the remaining active tasks. *)
Definition deleteTask (now : Z) (taskId : string) (ls : localStorage)
  : localStorage * list task :=
  let tasks := getTasks ls in
  match list_find (λ t, has_id taskId t) tasks with
  | Some (taskIndex, t) =>
      let taskToRecycle := <["deletedAt" := JStr (toISOString now)]> t in
      let recycledTasks := getRecycledTasks ls ++ [taskToRecycle] in
      let ls := <[RECYCLED_TASKS_KEY := recycledTasks]> ls in
      let tasks := delete taskIndex tasks in
      (saveTasks tasks ls, tasks)
  | None => (ls, tasks)
  end.

Definition permanentlyDeleteTask (taskId : string) (ls : localStorage)
  : localStorage * list task :=
  let recycledTasks := getRecycledTasks ls in
  let filteredTasks := filter (λ t, negb (has_id taskId t)) recycledTasks in
  (<[RECYCLED_TASKS_KEY := filteredTasks]> ls, filteredTasks).

Definition restoreTask (taskId : string) (ls : localStorage)
  : localStorage * list task :=
  let recycledTasks := getRecycledTasks ls in
  match list_find (λ t, has_id taskId t) recycledTasks with
  | Some (taskIndex, t) =>
      let taskToRestore := delete "deletedAt" t in
      let tasks := getTasks ls ++ [taskToRestore] in
      let ls := saveTasks tasks ls in
      let recycledTasks := delete taskIndex recycledTasks in
      (<[RECYCLED_TASKS_KEY := recycledTasks]> ls, recycledTasks)
  | None => (ls, recycledTasks)
  end.

(** The filter callback of [cleanupRecycleBin]:
    [new Date(task.deletedAt) > thirtyDaysAgo]. *)
Definition cleanup_keeps (h : host) (thirtyDaysAgo : option Z) (t : task)
  : bool :=
  match new_Date h (t !! "deletedAt"), thirtyDaysAgo with
  | Some deletedDate, Some cutoff => cutoff <? deletedDate
  | _, _ => false
  end.

(** [cleanupRecycleBin], run at the instant [now] in the browser [h]. *)
Definition cleanupRecycleBin (h : host) (now : Z) (ls : localStorage)
  : localStorage * list task :=
  let recycledTasks := getRecycledTasks ls in
  let thirtyDaysAgo := setDate_minus_30 h now in
  let filteredTasks :=
    filter (λ t, cleanup_keeps h thirtyDaysAgo t) recycledTasks in
  (<[RECYCLED_TASKS_KEY := filteredTasks]> ls, filteredTasks).


(** [Date.now().toString()]: the decimal numeral of the clock reading. *)
Definition Date_now_toString (now : Z) : string := pretty now.

(** [addTask]: the identifier is the clock reading, whatever the task
    held under [id]. *)
Definition addTask (now : Z) (t : task) (ls : localStorage)
  : localStorage * list task :=
  let tasks := getTasks ls in
  let t := <["id" := JStr (Date_now_toString now)]> t in
  let tasks := tasks ++ [t] in
  (saveTasks tasks ls, tasks).

Definition updateTask (taskId : string) (updatedTask : task) (ls : localStorage)
  : localStorage * list task :=
  let tasks := getTasks ls in
  match list_find (λ t, has_id taskId t) tasks with
  | Some (index, t) =>
      let tasks := <[index := updatedTask ∪ t]> tasks in
      (saveTasks tasks ls, tasks)
  | None => (ls, tasks)
  end.

Definition toggleTaskStatus (taskId : string) (ls : localStorage)
  : localStorage * list task :=
  let tasks := getTasks ls in
  match list_find (λ t, has_id taskId t) tasks with
  | Some (index, t) =>
      let t := <["completed" := JBool (negb (ToBoolean (t !! "completed")))]> t in
      let tasks := <[index := t]> tasks in
      (saveTasks tasks ls, tasks)
  | None => (ls, tasks)
  end.

(** The callback [task => task.dueDate === date]. *)
Definition due_on (date : string) (t : task) : bool :=
  strict_eq_string (t !! "dueDate") date.

Definition getTasksByDate (date : string) (ls : localStorage) : list task :=
  filter (λ t, due_on date t) (getTasks ls).

(** The comparison a [Set] makes.  Arrays and objects of parsed JSON are
    distinct objects, which are the same value only as themselves. *)
Definition SameValueZero (a b : json) : bool :=
  match a, b with
  | JNull, JNull => true
  | JBool x, JBool y => Bool.eqb x y
  | JNum x, JNum y => x =? y
  | JStr x, JStr y => String.eqb x y
  | _, _ => false
  end.

(** [dates.add(v)], the set being kept in insertion order. *)
Definition Set_add (dates : list json) (v : json) : list json :=
  if existsb (SameValueZero v) dates then dates else dates ++ [v].

(** The body of the [forEach] of [getDatesWithTasks]. *)
Definition add_dueDate (dates : list json) (t : task) : list json :=
  match t !! "dueDate" with
  | Some v => if ToBoolean (Some v) then Set_add dates v else dates
  | None => dates
  end.

(** [getDatesWithTasks]: [Array.from] lists the set in insertion
    order. *)
Definition getDatesWithTasks (ls : localStorage) : list json :=
  foldl add_dueDate [] (getTasks ls).

(** Once listed, a string is listed at one position only. *)
Definition listed_once (dates : list json) : Prop :=
  ∀ i j (d : string),
    dates !! i = Some (JStr d) → dates !! j = Some (JStr d) → i = j.

End Storage.

(** ** The browser application (js/app.js) *)

Module App.
Import Server.

(** The characters that stand for themselves in a URL path: letters,
    digits, [-], [_], [.] and [~]. *)
Definition unreserved (a : ascii) : bool :=
  let n := nat_of_ascii a in
  ((48 <=? n) && (n <=? 57) || (65 <=? n) && (n <=? 90)
   || (97 <=? n) && (n <=? 122)
   || (n =? 45) || (n =? 95) || (n =? 46) || (n =? 126))%nat.

Fixpoint all_unreserved (s : string) : bool :=
  match s with
  | String a s' => unreserved a && all_unreserved s'
  | EmptyString => true
  end.

(** An identifier that a URL carries unchanged as one path component:
    not empty, made of unreserved characters, and not a dot segment. *)
Definition path_component (id : string) : bool :=
  negb (String.eqb id "") && all_unreserved id
  && negb (String.eqb id ".") && negb (String.eqb id "..").

(** [response.ok] *)
Definition ok (r : response) : bool :=
  (200 <=? status_of r) && (status_of r <=? 299).


(** [fetch]: the request is served by the server.  The URL is given by
    its path components; an identifier put in a URL is taken to stand for
    itself as one component, which it does when it is a [path_component]
    (so the identifiers [uuidv4] generates). *)
Definition fetch (e : env) (m : method) (path : list string) (body : task)
  (s : state) : state * response :=
  app e (mkRequest m path body) s.

(** The methods of [ApiService] return the parsed response, or [null]
    ([None]), respectively the empty array, when the response is not ok. *)
Module ApiService.

Definition addTask (e : env) (t : task) (s : state) : state * option response :=
  let '(s, r) := fetch e POST ["api"; "todos"] t s in
  (s, if ok r then Some r else None).

Definition updateTask (e : env) (taskId : string) (updatedTask : task)
  (s : state) : state * option response :=
  let '(s, r) := fetch e PUT ["api"; "todos"; taskId] updatedTask s in
  (s, if ok r then Some r else None).

Definition getRecycledTasks (e : env) (s : state) : state * list task :=
  let '(s, r) := fetch e GET ["api"; "todos"; "recycled"] ∅ s in
  (s, match r with
      | Json_list _ l => if ok r then l else []
      | _ => []
      end).

Definition cleanupRecycleBin (e : env) (s : state) : state * option response :=
  let '(s, r) := fetch e DELETE ["api"; "todos"; "cleanup"] ∅ s in
  (s, if ok r then Some r else None).


Definition getTasks (e : env) (s : state) : state * list task :=
  let '(s, r) := fetch e GET ["api"; "todos"] ∅ s in
  (s, match r with
      | Json_list _ l => if ok r then l else []
      | _ => []
      end).

Definition toggleTaskStatus (e : env) (taskId : string) (s : state)
  : state * option response :=
  let '(s, r) := fetch e PATCH ["api"; "todos"; taskId; "toggle"] ∅ s in
  (s, if ok r then Some r else None).

Definition deleteTask (e : env) (taskId : string) (s : state)
  : state * option response :=
  let '(s, r) := fetch e PATCH ["api"; "todos"; taskId; "recycle"] ∅ s in
  (s, if ok r then Some r else None).

Definition restoreTask (e : env) (taskId : string) (s : state)
  : state * option response :=
  let '(s, r) := fetch e PATCH ["api"; "todos"; taskId; "restore"] ∅ s in
  (s, if ok r then Some r else None).

Definition permanentlyDeleteTask (e : env) (taskId : string) (s : state)
  : state * option response :=
  let '(s, r) := fetch e DELETE ["api"; "todos"; taskId] ∅ s in
  (s, if ok r then Some r else None).

End ApiService.

(** White space and line terminators of the language, by the bytes of
    their UTF-8 encoding: the tab, the line feed, the vertical tab, the
    form feed, the carriage return and the space; ... *)
Definition is_space1 (a : ascii) : bool :=
  let n := nat_of_ascii a in
  ((9 <=? n) && (n <=? 13))%nat || (n =? 32)%nat.

(** ... the no-break space U+00A0; ... *)
Definition is_space2 (a b : ascii) : bool :=
  ((nat_of_ascii a =? 194) && (nat_of_ascii b =? 160))%nat.

(** ... U+1680, U+2000 to U+200A, the line and paragraph separators
    U+2028 and U+2029, U+202F, U+205F, U+3000 and the byte order mark
    U+FEFF. *)
Definition is_space3 (a b c : ascii) : bool :=
  let '(x, y, z) := (nat_of_ascii a, nat_of_ascii b, nat_of_ascii c) in
  ((x =? 225) && (y =? 154) && (z =? 128)
   || (x =? 226) && (y =? 128)
      && ((128 <=? z) && (z <=? 138) || (z =? 168) || (z =? 169) || (z =? 175))
   || (x =? 226) && (y =? 129) && (z =? 159)
   || (x =? 227) && (y =? 128) && (z =? 128)
   || (x =? 239) && (y =? 187) && (z =? 191))%nat.

Fixpoint trimStart (s : string) : string :=
  match s with
  | String a s1 =>
      if is_space1 a then trimStart s1
      else
        match s1 with
        | String b s2 =>
            if is_space2 a b then trimStart s2
            else
              match s2 with
              | String c s3 => if is_space3 a b c then trimStart s3 else s
              | EmptyString => s
              end
        | EmptyString => s
        end
  | EmptyString => EmptyString
  end.

(** Cut where nothing but white space follows. *)
Fixpoint trimEnd (s : string) : string :=
  match s with
  | String c s' =>
      if String.eqb (trimStart s) "" then "" else String c (trimEnd s')
  | EmptyString => EmptyString
  end.

(** [String.prototype.trim] *)
Definition trim (s : string) : string := trimEnd (trimStart s).

(** The click handler of the Save button of the add-task form.  The
    arguments after the clocks are the values of the three inputs.  The
    result is the server's store once the handler has run, and the
    message of the [alert] it raised, if any. *)
Definition saveButton_click (e : env) (clientNow : Z)
  (titleInput dueDateInput categorySelect : string) (s : state)
  : state * option string :=
  let title := trim titleInput in
  if String.eqb title "" then (s, Some "Please enter a task title")
  else
    let newTask : task :=
      <["title" := JStr title]>
        (<["dueDate" := JStr dueDateInput]>
           (<["category" := JStr categorySelect]>
              (<["completed" := JBool false]>
                 {["createdAt" := JStr (toISOString clientNow)]}))) in
    ((ApiService.addTask e newTask s).1, None).

(** The click handler of the Update button of the edit form opened on
    [t], the task fetched for [taskId]. *)
Definition updateButton_click (e : env) (t : task) (taskId : string)
  (titleInput dueDateInput categorySelect : string) (s : state)
  : state * option string :=
  let title := trim titleInput in
  if String.eqb title "" then (s, Some "Please enter a task title")
  else
    let updatedTask : task :=
      <["category" := JStr categorySelect]>
        (<["dueDate" := JStr dueDateInput]> (<["title" := JStr title]> t)) in
    ((ApiService.updateTask e taskId updatedTask s).1, None).

(** [showRecycleBin]: the tasks listed in the modal are those fetched
    first; the cleanup request is sent last ("Run cleanup on open").
    Returns the server's store afterwards and the tasks listed. *)
Definition showRecycleBin (e1 e2 : env) (s : state) : state * list task :=
  let '(s, recycledTasks) := ApiService.getRecycledTasks e1 s in
  let '(s, _) := ApiService.cleanupRecycleBin e2 s in
  (s, recycledTasks).


(** [renderTasks]: the tasks for which an element is put in the list,
    under the filter tab and the category in force (when there is none
    the list shows "No tasks to display"). *)
Definition renderTasks (currentFilter currentCategory : string) (e : env)
  (s : state) : list task :=
  let tasks := (ApiService.getTasks e s).2 in
  let filteredTasks :=
    if String.eqb currentFilter "completed" then
      filter (λ t : task, ToBoolean (t !! "completed")) tasks
    else if String.eqb currentFilter "active" then
      filter (λ t : task, negb (ToBoolean (t !! "completed"))) tasks
    else tasks in
  if negb (String.eqb currentCategory "none") then
    filter (λ t : task, strict_eq_string (t !! "category") currentCategory)
      filteredTasks
  else filteredTasks.

(** [toggleTaskCompletion], the click on a task's checkbox. *)
Definition toggleTaskCompletion (e : env) (taskId : string) (s : state) : state :=
  (ApiService.toggleTaskStatus e taskId s).1.

(** [deleteTask], the click on a task's bin; [confirmed] is the answer
    to the [confirm] dialog. *)
Definition deleteTask (confirmed : bool) (e : env) (taskId : string)
  (s : state) : state :=
  if confirmed then (ApiService.deleteTask e taskId s).1 else s.

(** The task [editTask] opens the edit form on:
    [tasks.find(t => t.id === taskId)]; with [None] no form is opened. *)
Definition editTask (e : env) (taskId : string) (s : state) : option task :=
  snd <$> list_find (λ t, has_id taskId t) (ApiService.getTasks e s).2.

(** The Restore button of an entry of the recycle bin. *)
Definition restoreBtn_click (e : env) (taskId : string) (s : state) : state :=
  (ApiService.restoreTask e taskId s).1.

(** The Delete Permanently button of an entry of the recycle bin. *)
Definition deleteBtn_click (confirmed : bool) (e : env) (taskId : string)
  (s : state) : state :=
  if confirmed then (ApiService.permanentlyDeleteTask e taskId s).1 else s.

(** The Empty Recycle Bin button: once confirmed it sends the cleanup
    request and then shows the bin as empty.  Returns the server's store
    and whether the list shown has been emptied. *)
Definition emptyBinBtn_click (confirmed : bool) (e : env) (s : state)
  : state * bool :=
  if confirmed then ((ApiService.cleanupRecycleBin e s).1, true) else (s, false).

End App.

(** ** The lifecycle seen as a state machine *)

Module Lifecycle.
Import Server.

(** The retention window: thirty days, in milliseconds. *)
Definition retentionWindow : Z := 30 * msPerDay.

(** The window a sweep run at [now] on the host [h] applies: the time
    elapsed since the cutoff, which is the same local wall-clock time
    thirty calendar days earlier. *)
Definition sweepWindow (h : host) (now : Z) : option Z :=
  (λ thirtyDaysAgo, now - thirtyDaysAgo) <$> setDate_minus_30 h now.

(** The host's offset from UTC is the same at [now] and at the local
    time thirty days earlier (no change of daylight saving time or of
    zone rules in between). *)
Definition same_offset (h : host) (now : Z) : Prop :=
  LocalTZA_local h (now + LocalTZA_utc h now - 30 * msPerDay)
  = LocalTZA_utc h now.

(** The identifier a record carries, if any. *)
Definition task_id (t : task) : option json := t !! "id".

Definition ids (l : list task) : list (option json) := task_id <$> l.


(** Some record of [l] answers to the identifier [id]. *)
Definition present (id : string) (l : list task) : Prop :=
  ∃ t, t ∈ l ∧ has_id id t.


(** The public operations, each served by its handler. *)
Inductive op : Type :=
| OpCreate (body : task)
| OpEdit (id : string) (body : task)
| OpToggle (id : string)
| OpDelete (id : string)
| OpRestore (id : string)
| OpPurge (id : string)
| OpSweep.

Definition run (e : env) (o : op) (s : state) : state * response :=
  match o with
  | OpCreate body => post_todos e body s
  | OpEdit id body => put_todo e id body s
  | OpToggle id => patch_toggle e id s
  | OpDelete id => patch_recycle e id s
  | OpRestore id => patch_restore e id s
  | OpPurge id => delete_todo id s
  | OpSweep => delete_cleanup e s
  end.

(** The states the operations reach from the empty store. *)
Inductive reachable : state → Prop :=
| reachable_init : reachable init
| reachable_step s e o : reachable s → reachable (run e o s).1.










(** A request is tidy when its body does not mention [deletedAt] and,
    for a deletion, the clock reads a valid instant. *)
Definition tidy (e : env) (o : op) : Prop :=
  match o with
  | OpCreate body => body !! "deletedAt" = None
  | OpEdit _ body => body !! "deletedAt" = None
  | OpDelete _ => valid_time (now e)
  | _ => True
  end.

(** [deletedAt] is carried by the records of the Recycle Set, where it
    reads as an instant, and by no record of the Active Set. *)
Definition deletedAt_tracks_bin (h : host) (s : state) : Prop :=
  (∀ t : task, t ∈ TODOS_FILE s → t !! "deletedAt" = None)
  ∧ (∀ t : task, t ∈ RECYCLED_FILE s →
       ∃ d, new_Date h (t !! "deletedAt") = Some d).

End Lifecycle.

(** ** Sample data *)

Module Samples.
Import Server Lifecycle.

(** 2023-11-14T22:13:20.000Z *)
Definition T : Z := 1700000000000.

(** A host on UTC whose engine reads the standard form only. *)
Definition utc : host := mkHost (λ _, 0) (λ _, 0) (λ _, None) (λ _, None).

(** A host on the time of New York in the autumn of 2023: four hours
    behind UTC until 2023-11-05T06:00:00Z, five hours behind after. *)
Definition new_york : host :=
  mkHost (λ t, if t <? 1699164000000 then -14400000 else -18000000)
         (λ l, if l <? 1699149600000 then -14400000 else -18000000)
         (λ _, None) (λ _, None).

Definition at_ (u : string) (t : Z) : env := mkEnv u t utc.

(** What the add-task form sends for "Buy milk" with no due date. *)
Definition buy_milk : task :=
  {[ "title" := JStr "Buy milk"; "dueDate" := JStr "";
     "category" := JStr "none"; "completed" := JBool false ]}.

(** "Buy milk" created under the identifier u1 ... *)
Definition created : state := (run (at_ "u1" T) (OpCreate buy_milk) init).1.

(** ... and moved to the recycle bin one second later. *)
Definition recycled : state := (run (at_ "" (T + 1000)) (OpDelete "u1") created).1.

(** A creation whose body names the identifier of the recycled task. *)
Definition copy_of_u1 : task := {[ "title" := JStr "Copy"; "id" := JStr "u1" ]}.


(** A record recycled at [T]. *)
Definition old : task :=
  {[ "id" := JStr "a"; "title" := JStr "Buy milk";
     "deletedAt" := JStr (toISOString T) ]}.

Definition bin : state := mkState [] [old].

Definition bin_storage : gmap string (list task) :=
  {[ Storage.RECYCLED_TASKS_KEY := [old] ]}.

Definition plain_a : task := {[ "id" := JStr "a"; "title" := JStr "Buy milk" ]}.


(** "Buy milk" as the add-task form sends it, under the identifier a. *)
Definition milk_a : task := <["id" := JStr "a"]> buy_milk.

(** The no-break space U+00A0. *)
Definition nbsp : string := String (ascii_of_nat 194) (String (ascii_of_nat 160) "").

(** A title typed with white space of several kinds about it. *)
Definition buy_bread_typed : string := nbsp +:+ " Buy bread " +:+ nbsp.

(** A store with one active task and an empty recycle bin. *)
Definition desk : state := mkState [plain_a] [].

(** The same in localStorage, with "Buy milk" of the form. *)
Definition shelf : gmap string (list task) :=
  {[ Storage.TASKS_STORAGE_KEY := [milk_a] ]}.

End Samples.

(** * Properties *)

Import Server Lifecycle.

(** ** The Date built-in: what [toISOString] writes, [Date.parse] reads *)

Section DateRoundTrip.

Lemma digit_val_digit d : 0 ≤ d ≤ 9 → digit_val (digit d) = Some d.
Proof.
  intros H.
  assert (d = 0 ∨ d = 1 ∨ d = 2 ∨ d = 3 ∨ d = 4 ∨ d = 5 ∨ d = 6 ∨ d = 7 ∨
          d = 8 ∨ d = 9) as Hd by lia.
  repeat (destruct Hd as [->|Hd]; [reflexivity|]). subst. reflexivity.
Qed.

Lemma digits_append w n acc rest :
  digits w n acc +:+ rest = digits w n (acc +:+ rest).
Proof.
  revert n acc. induction w as [|w IH]; intros n acc; simpl; [done|].
  by rewrite IH.
Qed.

Lemma read_digits_digits w k a n rest :
  0 ≤ n < 10 ^ Z.of_nat w →
  read_digits (w + k) a (digits w n rest) =
  read_digits k (a * 10 ^ Z.of_nat w + n) rest.
Proof.
  revert k a n rest. induction w as [|w IH]; intros k a n rest Hn.
  - simpl in *. f_equal. lia.
  - rewrite Nat2Z.inj_succ, Z.pow_succ_r in Hn by lia.
    cbn [digits]. replace (S w + k)%nat with (w + S k)%nat by lia.
    rewrite IH by (split; [apply Z.div_pos; lia | apply Z.div_lt_upper_bound; lia]).
    cbn [read_digits].
    rewrite digit_val_digit by (pose proof (Z.mod_pos_bound n 10); lia).
    f_equal. rewrite Nat2Z.inj_succ, Z.pow_succ_r by lia.
    pose proof (Z.div_mod n 10). lia.
Qed.

(** A zero-padded field of width [w] is read back as the number. *)
Lemma read_pad w n rest :
  0 ≤ n < 10 ^ Z.of_nat w →
  read_digits w 0 (pad w n +:+ rest) = Some (n, rest).
Proof.
  intros Hn. unfold pad. rewrite digits_append. simpl.
  replace w with (w + 0)%nat at 1 by lia.
  rewrite read_digits_digits by done. simpl. f_equal; f_equal; lia.
Qed.

Lemma digits_head w n acc :
  ∃ c s, digits (S w) n acc = String c s ∧ is_Some (digit_val c).
Proof.
  revert n acc. induction w as [|w IH]; intros n acc.
  - eexists _, _. split; [reflexivity|].
    rewrite digit_val_digit by (pose proof (Z.mod_pos_bound n 10); lia). eauto.
  - change (digits (S (S w)) n acc)
      with (digits (S w) (n / 10) (String (digit (n mod 10)) acc)).
    apply IH.
Qed.

(** A year that starts with a digit is a four-digit year. *)
Lemma read_year_digit c s :
  is_Some (digit_val c) → read_year (String c s) = read_digits 4 0 (String c s).
Proof.
  intros [v Hv].
  destruct c as [[] [] [] [] [] [] [] []].
  all: try (vm_compute in Hv; discriminate Hv).
  all: reflexivity.
Qed.

Lemma read_year_4 y rest :
  0 ≤ y ≤ 9999 → read_year (pad 4 y +:+ rest) = Some (y, rest).
Proof.
  intros Hy. rewrite <- (read_pad 4 y rest) by (simpl; lia).
  unfold pad. rewrite digits_append.
  destruct (digits_head 3 y ("" +:+ rest)) as (c & s & -> & Hc).
  by apply read_year_digit.
Qed.

Lemma read_year_plus y rest :
  0 ≤ y ≤ 999999 →
  read_year (("+" +:+ pad 6 (Z.abs y)) +:+ rest) = Some (y, rest).
Proof.
  intros Hy. rewrite Z.abs_eq by lia.
  change (("+" +:+ pad 6 y) +:+ rest) with (String "+" (pad 6 y +:+ rest)).
  cbv beta iota delta [read_year].
  apply read_pad. change (10 ^ Z.of_nat 6) with 1000000. lia.
Qed.

Lemma read_year_minus y rest :
  -999999 ≤ y < 0 →
  read_year (("-" +:+ pad 6 (Z.abs y)) +:+ rest) = Some (y, rest).
Proof.
  intros Hy.
  change (("-" +:+ pad 6 (Z.abs y)) +:+ rest)
    with (String "-" (pad 6 (Z.abs y) +:+ rest)).
  cbv beta iota delta [read_year].
  rewrite read_pad by (change (10 ^ Z.of_nat 6) with 1000000; lia).
  destruct (Z.abs y =? 0) eqn:E; [lia|]. do 2 f_equal. lia.
Qed.

Lemma expect_here c rest : expect c (String c rest) = Some rest.
Proof. unfold expect. by rewrite Ascii.eqb_refl. Qed.

Lemma append_char c rest : String c "" +:+ rest = String c rest.
Proof. reflexivity. Qed.

(** Parsing a string laid out field by field, the fields being in
    range. *)
Lemma Date_parse_fields (ystr : string) y m d hh mm ss ms :
  (∀ rest, read_year (ystr +:+ rest) = Some (y, rest)) →
  1 ≤ m ≤ 12 → 1 ≤ d ≤ days_in_month y m → d ≤ 31 →
  0 ≤ hh ≤ 23 → 0 ≤ mm ≤ 59 → 0 ≤ ss ≤ 59 → 0 ≤ ms ≤ 999 →
  Date_parse_full
    (ystr +:+ "-" +:+ pad 2 m +:+ "-" +:+ pad 2 d +:+ "T" +:+
     pad 2 hh +:+ ":" +:+ pad 2 mm +:+ ":" +:+ pad 2 ss +:+ "." +:+
     pad 3 ms +:+ "Z") =
  TimeClip (days_from_civil y m d * msPerDay
            + hh * 3600000 + mm * 60000 + ss * 1000 + ms).
Proof.
  intros Hy Hm Hd Hd31 Hhh Hmm Hss Hms. unfold Date_parse_full.
  rewrite Hy. cbn [mbind option_bind].
  repeat (rewrite append_char, expect_here; cbn [mbind option_bind];
          rewrite read_pad by (simpl; lia); cbn [mbind option_bind]).
  rewrite expect_here. cbn [mbind option_bind].
  match goal with
  | |- (if ?b then _ else _) = _ => replace b with true; [done|]
  end.
  symmetry.
  repeat (apply andb_true_intro; split);
    rewrite ?orb_true_iff, ?Z.leb_le; try reflexivity; lia.
Qed.

Lemma time_of_day tod :
  0 ≤ tod < msPerDay →
  let hh := tod / 3600000 in
  let mm := tod / 60000 mod 60 in
  let ss := tod / 1000 mod 60 in
  let ms := tod mod 1000 in
  0 ≤ hh ≤ 23 ∧ 0 ≤ mm ≤ 59 ∧ 0 ≤ ss ≤ 59 ∧ 0 ≤ ms ≤ 999 ∧
  hh * 3600000 + mm * 60000 + ss * 1000 + ms = tod.
Proof.
  unfold msPerDay. intros H. cbv zeta.
  Z.div_mod_to_equations. lia.
Qed.

Lemma is_leap_spec y :
  is_leap y = true ↔ (y mod 4 = 0 ∧ (y mod 100 ≠ 0 ∨ y mod 400 = 0)).
Proof.
  unfold is_leap.
  rewrite orb_true_iff, andb_true_iff, negb_true_iff, !Z.eqb_eq, Z.eqb_neq.
  Z.div_mod_to_equations. lia.
Qed.

Lemma is_leap_periodic y k : is_leap (y + k * 400) = is_leap y.
Proof.
  apply eq_true_iff_eq. rewrite !is_leap_spec.
  Z.div_mod_to_equations. lia.
Qed.

(** The month and the day of the month read off the day [doy] of a year
    that starts on the first of March. *)
Lemma month_day_bounds doy (leap : bool) :
  0 ≤ doy ≤ (if leap then 365 else 364) →
  let mp := (5 * doy + 2) / 153 in
  let d := doy - (153 * mp + 2) / 5 + 1 in
  0 ≤ mp ≤ 11 ∧ 1 ≤ d ∧
  d ≤ (if mp =? 11 then (if leap then 29 else 28)
       else if (mp =? 1) || (mp =? 3) || (mp =? 6) || (mp =? 8) then 30
       else 31).
Proof.
  intros H. cbv zeta.
  assert (Hmp : 0 ≤ (5 * doy + 2) / 153 ≤ 11)
    by (destruct leap; Z.div_mod_to_equations; lia).
  split; [done|].
  set (mp := (5 * doy + 2) / 153) in *.
  assert (Hc : mp = 0 ∨ mp = 1 ∨ mp = 2 ∨ mp = 3 ∨ mp = 4 ∨ mp = 5 ∨
               mp = 6 ∨ mp = 7 ∨ mp = 8 ∨ mp = 9 ∨ mp = 10 ∨ mp = 11) by lia.
  assert (Hdef : mp = (5 * doy + 2) / 153) by done.
  clearbody mp.
  repeat (destruct Hc as [->|Hc];
          [simpl; destruct leap; Z.div_mod_to_equations; lia|]).
  subst mp. simpl. destruct leap; Z.div_mod_to_equations; lia.
Qed.

(** The calendar date of a day is a date of the calendar, and its day
    number is that day. *)
Lemma civil_roundtrip z :
  let '(y, m, d) := civil_from_days z in
  1 ≤ m ≤ 12 ∧ 1 ≤ d ≤ days_in_month y m ∧ days_from_civil y m d = z.
Proof.
  unfold civil_from_days.
  set (z' := z + 719468).
  set (era := z' / 146097).
  set (doe := z' - era * 146097).
  assert (Hdoe : 0 ≤ doe ≤ 146096)
    by (unfold doe, era; Z.div_mod_to_equations; lia).
  set (yoe := (doe - doe / 1460 + doe / 36524 - doe / 146096) / 365).
  set (doy := doe - (365 * yoe + yoe / 4 - yoe / 100)).
  assert (Hyoe : 0 ≤ yoe ≤ 399 ∧ 0 ≤ doy ≤ 365
                 ∧ (doy = 365 → (yoe + 1) mod 4 = 0 ∧
                      ((yoe + 1) mod 100 ≠ 0 ∨ (yoe + 1) mod 400 = 0)))
    by (unfold doy, yoe; Z.div_mod_to_equations; lia).
  destruct Hyoe as (Hyoe & Hdoy & Hleap).
  set (leap := is_leap (yoe + 1)).
  assert (Hdoy' : 0 ≤ doy ≤ (if leap then 365 else 364)).
  { destruct leap eqn:El; [lia|]. split; [lia|].
    destruct (decide (doy = 365)) as [E|]; [|lia].
    apply Hleap, is_leap_spec in E. unfold leap in El. congruence. }
  pose proof (month_day_bounds doy leap Hdoy') as Hmd. cbv zeta in Hmd.
  set (mp := (5 * doy + 2) / 153) in *.
  set (d := doy - (153 * mp + 2) / 5 + 1) in *.
  destruct Hmd as (Hmp & Hd1 & Hd2).
  assert (Hc : mp = 0 ∨ mp = 1 ∨ mp = 2 ∨ mp = 3 ∨ mp = 4 ∨ mp = 5 ∨
               mp = 6 ∨ mp = 7 ∨ mp = 8 ∨ mp = 9 ∨ mp = 10 ∨ mp = 11) by lia.
  assert (Hdd : doy = (153 * mp + 2) / 5 + d - 1) by (unfold d; lia).
  assert (Hdoe' : doe = yoe * 365 + yoe / 4 - yoe / 100 + doy)
    by (unfold doy; lia).
  assert (Hz : z = era * 146097 + doe - 719468) by (unfold doe, z'; lia).
  clearbody d mp doy. clearbody yoe. clearbody doe. clearbody era.
  destruct Hc as [->|[->|[->|[->|[->|[->|[->|[->|[->|[->|[->| ->]]]]]]]]]]];
    simpl; unfold days_in_month, days_from_civil; simpl; simpl in Hd2;
    (split; [lia|]); clear Hleap;
    try (replace (yoe + era * 400 + 1) with (yoe + 1 + era * 400) by lia;
         rewrite is_leap_periodic; fold leap);
    (split; [split; [lia|destruct leap; lia]|]);
    clear Hdoy'; clearbody leap;
    Z.div_mod_to_equations; lia.
Qed.

Lemma civil_year_bound z :
  -100000000 ≤ z ≤ 100000000 →
  -999999 ≤ (civil_from_days z).1.1 ≤ 999999.
Proof.
  intros Hz. unfold civil_from_days. cbv zeta. cbn [fst].
  match goal with |- context [if ?b then _ else _] => destruct b end;
    Z.div_mod_to_equations; lia.
Qed.

(** Every valid instant is read back from the string written for it. *)
Lemma Date_parse_full_toISOString t :
  valid_time t → Date_parse_full (toISOString t) = Some t.
Proof.
  unfold valid_time. intros Ht. unfold toISOString.
  pose proof (civil_roundtrip (t / msPerDay)) as Hc.
  pose proof (civil_year_bound (t / msPerDay)) as Hy.
  destruct (civil_from_days (t / msPerDay)) as [[y m] d].
  cbn [fst] in Hy.
  assert (Hday : -100000000 ≤ t / msPerDay ≤ 100000000)
    by (unfold msPerDay; Z.div_mod_to_equations; lia).
  specialize (Hy Hday). destruct Hc as (Hm & Hd & Hdays).
  assert (Hd31 : days_in_month y m ≤ 31).
  { unfold days_in_month. repeat case_match; lia. }
  pose proof (time_of_day (t mod msPerDay)) as Htod. cbv zeta in Htod.
  destruct Htod as (Hhh & Hmm & Hss & Hms & Hsum);
    [unfold msPerDay; Z.div_mod_to_equations; lia|].
  set (hh := t mod msPerDay / 3600000) in *.
  set (mm := t mod msPerDay / 60000 mod 60) in *.
  set (ss := t mod msPerDay / 1000 mod 60) in *.
  set (ms := t mod msPerDay mod 1000) in *.
  assert (Hclip : TimeClip (days_from_civil y m d * msPerDay
                            + hh * 3600000 + mm * 60000 + ss * 1000 + ms) = Some t).
  { replace (days_from_civil y m d * msPerDay
             + hh * 3600000 + mm * 60000 + ss * 1000 + ms) with t
      by (rewrite Hdays; pose proof (Z.div_mod t msPerDay);
          unfold msPerDay in *; lia).
    unfold TimeClip. destruct (Z.abs t <=? 8640000000000000) eqn:E; [done|lia]. }
  rewrite <- Hclip.
  destruct ((0 <=? y) && (y <=? 9999)) eqn:Ey.
  - apply (Date_parse_fields (pad 4 y)); try lia.
    intros rest. apply read_year_4. lia.
  - destruct (y <? 0) eqn:Eneg.
    + apply (Date_parse_fields ("-" +:+ pad 6 (Z.abs y))); try lia.
      intros rest. apply read_year_minus. lia.
    + apply (Date_parse_fields ("+" +:+ pad 6 (Z.abs y))); try lia.
      intros rest. apply read_year_plus. lia.
Qed.

(** On every host. *)
Lemma Date_parse_toISOString h t :
  valid_time t → Date_parse h (toISOString t) = Some t.
Proof.
  intros Ht. unfold Date_parse. by rewrite Date_parse_full_toISOString.
Qed.

(** A time stamp written by the application reads back as its instant. *)
Lemma new_Date_stamp h t :
  valid_time t → new_Date h (Some (JStr (toISOString t))) = Some t.
Proof. intros Ht. simpl. by apply Date_parse_toISOString. Qed.

End DateRoundTrip.

(** ** Looking a record up by identifier *)

Section FindIndex.

Lemma findIndex_Some id (l : list task) i t :
  findIndex id l = Some (i, t) → l !! i = Some t ∧ has_id id t.
Proof.
  unfold findIndex. intros H. apply list_find_Some in H. tauto.
Qed.

Lemma findIndex_present id (l : list task) :
  present id l → ∃ i t, findIndex id l = Some (i, t).
Proof.
  intros (t & Hin & Hid). unfold findIndex.
  destruct (list_find (λ todo, has_id id todo) l) as [[i t']|] eqn:E; [eauto|].
  apply list_find_None in E. rewrite Forall_forall in E.
  exfalso. exact (E t Hin Hid).
Qed.

Lemma findIndex_absent id (l : list task) :
  ¬ present id l → findIndex id l = None.
Proof.
  intros Hn. destruct (findIndex id l) as [[i t]|] eqn:E; [|done].
  apply findIndex_Some in E as [Hl Hid].
  exfalso. apply Hn. exists t. split; [|done].
  apply list_elem_of_lookup. eauto.
Qed.

Lemma findIndex_None_absent id (l : list task) :
  findIndex id l = None → ¬ present id l.
Proof.
  intros E Hp. apply findIndex_present in Hp as (i & t & Hf). congruence.
Qed.

End FindIndex.

(** ** The items of localStorage *)

Section StorageItems.
Import Storage.

Lemma getTasks_saveTasks (l : list task) (ls : localStorage) :
  getTasks (saveTasks l ls) = l.
Proof. unfold getTasks, saveTasks. by rewrite lookup_insert_eq. Qed.

Lemma getRecycledTasks_saveTasks (l : list task) (ls : localStorage) :
  getRecycledTasks (saveTasks l ls) = getRecycledTasks ls.
Proof. unfold getRecycledTasks, saveTasks. by rewrite lookup_insert_ne. Qed.

Lemma getTasks_insert_recycled (l : list task) (ls : localStorage) :
  getTasks (<[RECYCLED_TASKS_KEY := l]> ls) = getTasks ls.
Proof. unfold getTasks. by rewrite lookup_insert_ne. Qed.


Lemma getRecycledTasks_insert (l : list task) (ls : localStorage) :
  getRecycledTasks (<[RECYCLED_TASKS_KEY := l]> ls) = l.
Proof. unfold getRecycledTasks. by rewrite lookup_insert_eq. Qed.

End StorageItems.

(** ** Moving a record between the two sets *)

Section Moves.

Lemma has_id_recycled id (t : task) v :
  has_id id (<["deletedAt" := v]> t) = has_id id t.
Proof. unfold has_id. by rewrite lookup_insert_ne. Qed.

Lemma has_id_restored id (t : task) v :
  has_id id (<["restoredAt" := v]> (delete "deletedAt" t)) = has_id id t.
Proof. unfold has_id. by rewrite lookup_insert_ne, lookup_delete_ne. Qed.

Lemma findIndex_snoc id (l : list task) t :
  ¬ present id l → has_id id t → findIndex id (l ++ [t]) = Some (length l, t).
Proof.
  intros Hn Hid. apply findIndex_absent in Hn. unfold findIndex in *.
  rewrite list_find_app_r by done. simpl.
  destruct (decide (has_id id t)); [|done].
  simpl. by rewrite ?Nat.add_0_r.
Qed.

Lemma delete_snoc {A} (l : list A) x : delete (length l) (l ++ [x]) = l.
Proof.
  induction l as [|y l IH]; simpl; [done|]. by rewrite IH.
Qed.



(** C5: when [id] designates the record [t] of the Active Set and no
    record of the Recycle Set answers to [id], recycling [id] and then
    restoring it leaves in the Active Set a record that agrees with [t]
    on every field except [deletedAt], which is absent, and
    [restoredAt], which holds the time of the restoration; the Recycle
    Set is what it was. *)
Theorem recycle_then_restore (e1 e2 : env) (id : string) (s : state)
  (i : nat) (t : task) :
  findIndex id (TODOS_FILE s) = Some (i, t) →
  ¬ present id (RECYCLED_FILE s) →
  ∃ t2,
    patch_restore e2 id (patch_recycle e1 id s).1 =
      (mkState (delete i (TODOS_FILE s) ++ [t2]) (RECYCLED_FILE s),
       Json_task 200 t2) ∧
    t2 !! "deletedAt" = None ∧
    t2 !! "restoredAt" = Some (JStr (toISOString (now e2))) ∧
    (∀ k, k ≠ "deletedAt" → k ≠ "restoredAt" → t2 !! k = t !! k).
Proof.
  intros Hf Hn.
  destruct (findIndex_Some _ _ _ _ Hf) as [Hl Hid].
  set (t1 := <["deletedAt" := JStr (toISOString (now e1))]> t).
  assert (Hid1 : has_id id t1) by (unfold t1; by rewrite has_id_recycled).
  exists (<["restoredAt" := JStr (toISOString (now e2))]> (delete "deletedAt" t1)).
  repeat split.
  - unfold patch_recycle, readTodos, readRecycled. rewrite Hf. simpl.
    unfold patch_restore, readTodos, readRecycled. simpl. fold t1.
    rewrite (findIndex_snoc id (RECYCLED_FILE s) t1 Hn Hid1).
    by rewrite delete_snoc.
  - rewrite lookup_insert_ne by done. apply lookup_delete_eq.
  - apply lookup_insert_eq.
  - intros k Hd Hr. unfold t1.
    by rewrite lookup_insert_ne, lookup_delete_ne, lookup_insert_ne.
Qed.


End Moves.

(** ** The retention sweep *)

Section Sweep.
Import Storage.

Lemma filter_idem {A} (P : A → Prop) `{!∀ x, Decision (P x)} (l : list A) :
  filter P (filter P l) = filter P l.
Proof.
  induction l as [|x l IH]; [done|].
  rewrite filter_cons. destruct (decide (P x)) as [HP|HP]; [|done].
  rewrite filter_cons. destruct (decide (P x)); [|done]. by rewrite IH.
Qed.

(** Under an offset that is the same at both ends the cutoff lies
    thirty days of 24 hours back. *)
Lemma setDate_same_offset (h : host) (now : Z) :
  same_offset h now → setDate_minus_30 h now = TimeClip (now - retentionWindow).
Proof.
  unfold same_offset, setDate_minus_30, retentionWindow. cbv zeta.
  intros ->. f_equal. lia.
Qed.

Lemma sweepWindow_same_offset (h : host) (now w : Z) :
  sweepWindow h now = Some w → same_offset h now → w = retentionWindow.
Proof.
  unfold sweepWindow. intros Hw Hs.
  rewrite (setDate_same_offset _ _ Hs) in Hw. unfold TimeClip in Hw.
  destruct (Z.abs (now - retentionWindow) <=? 8640000000000000);
    simpl in Hw; [|done].
  injection Hw as <-. lia.
Qed.

Lemma server_keeps_iff (h : host) (now : Z) (t : task) (d w : Z) :
  new_Date h (t !! "deletedAt") = Some d →
  sweepWindow h now = Some w →
  Server.cleanup_keeps h (setDate_minus_30 h now) t ↔ now - d ≤ w.
Proof.
  intros Hd Hw. unfold Server.cleanup_keeps. rewrite Hd.
  unfold sweepWindow in Hw.
  destruct (setDate_minus_30 h now) as [c|]; simpl in Hw; [|done].
  injection Hw as <-. rewrite Is_true_true, Z.leb_le. lia.
Qed.


Lemma server_swept_iff (e : env) (s : state) (t : task) (d w : Z) :
  new_Date (server e) (t !! "deletedAt") = Some d →
  sweepWindow (server e) (now e) = Some w →
  t ∈ RECYCLED_FILE (delete_cleanup e s).1 ↔
  (t ∈ RECYCLED_FILE s ∧ now e - d ≤ w).
Proof.
  intros Hd Hw. unfold delete_cleanup, readRecycled. simpl.
  rewrite list_elem_of_filter, (server_keeps_iff _ _ _ _ _ Hd Hw). tauto.
Qed.



(** X23: a record recycled by the server at one instant survives the
    server's sweep at a later one exactly when no more than the window of
    that sweep lies between the two; the window is the retention window
    of thirty days of 24 hours when the server's offset from UTC is the
    same at the sweep and thirty days before. *)
Lemma recycled_then_swept (e1 e2 : env) (id : string) (s : state) i t w :
  valid_time (now e1) →
  findIndex id (TODOS_FILE s) = Some (i, t) →
  sweepWindow (server e2) (now e2) = Some w →
  (<["deletedAt" := JStr (toISOString (now e1))]> t
     ∈ RECYCLED_FILE (delete_cleanup e2 (patch_recycle e1 id s).1).1
   ↔ now e2 - now e1 ≤ w)
  ∧ (same_offset (server e2) (now e2) → w = retentionWindow).
Proof.
  intros Hv Hf Hw.
  split; [|by apply (sweepWindow_same_offset (server e2) (now e2))].
  rewrite (server_swept_iff e2 _ _ (now e1) w);
    [|rewrite lookup_insert_eq; by apply new_Date_stamp|done].
  unfold patch_recycle, readTodos, readRecycled. rewrite Hf. simpl.
  rewrite elem_of_app, list_elem_of_singleton. tauto.
Qed.

(** C6: a second sweep at the same instant discards nothing and leaves
    the Recycle Set as the first sweep left it, for the server's cleanup
    handler and for [Storage.cleanupRecycleBin]. *)
Theorem sweep_idempotent (e : env) (s : state) (browser : host)
  (ls : localStorage) :
  delete_cleanup e (delete_cleanup e s).1 =
    ((delete_cleanup e s).1, Json_cleanup 200 0)
  ∧ cleanupRecycleBin browser (now e) (cleanupRecycleBin browser (now e) ls).1 =
      cleanupRecycleBin browser (now e) ls.
Proof.
  split.
  - unfold delete_cleanup, writeRecycled, readRecycled. simpl.
    rewrite filter_idem. by rewrite Z.sub_diag.
  - unfold cleanupRecycleBin. cbn [fst].
    by rewrite getRecycledTasks_insert, filter_idem, insert_insert_eq.
Qed.

End Sweep.

(** ** The storage module's restore *)

Section StorageRestore.
Import Storage.

(** X24: [Storage.restoreTask] moves the first record that answers to
    the identifier and clears its [deletedAt], as the server does, but it
    stamps no [restoredAt], returns the remaining recycled tasks rather
    than the record, and signals nothing when the identifier is absent. *)
Lemma storage_restoreTask_found (taskId : string) (ls : localStorage) i t :
  list_find (λ t, has_id taskId t) (getRecycledTasks ls) = Some (i, t) →
  getTasks (restoreTask taskId ls).1 = getTasks ls ++ [delete "deletedAt" t]
  ∧ getRecycledTasks (restoreTask taskId ls).1 = delete i (getRecycledTasks ls)
  ∧ (restoreTask taskId ls).2 = delete i (getRecycledTasks ls)
  ∧ (delete "deletedAt" t : task) !! "restoredAt" = t !! "restoredAt".
Proof.
  intros Hf. unfold restoreTask. rewrite Hf. cbn [fst snd].
  split_and!; [| |done|by rewrite lookup_delete_ne].
  - unfold getTasks, saveTasks.
    rewrite lookup_insert_ne by done. by rewrite lookup_insert_eq.
  - unfold getRecycledTasks at 1. by rewrite lookup_insert_eq.
Qed.

Lemma storage_restoreTask_absent (taskId : string) (ls : localStorage) :
  list_find (λ t, has_id taskId t) (getRecycledTasks ls) = None →
  restoreTask taskId ls = (ls, getRecycledTasks ls).
Proof. intros Hf. unfold restoreTask. by rewrite Hf. Qed.

End StorageRestore.

(** ** Identifiers *)

Section Identifiers.








Lemma ids_insert (l : list task) i t t' :
  l !! i = Some t → task_id t' = task_id t → ids (<[i := t']> l) = ids l.
Proof.
  intros Hl Hid. unfold ids. rewrite list_fmap_insert.
  apply list_insert_id. rewrite list_lookup_fmap, Hl. simpl. by rewrite Hid.
Qed.
















End Identifiers.

(** ** The presentation layer *)

Section Presentation.
Import App.

(** The cleanup request is served by the handler of
    [DELETE /api/todos/:id], registered first, with [id = "cleanup"]. *)
Lemma cleanup_route_shadowed (e : env) (body : task) (s : state) :
  app e (mkRequest DELETE ["api"; "todos"; "cleanup"] body) s =
  delete_todo "cleanup" s.
Proof. reflexivity. Qed.

Lemma recycled_route (e : env) (body : task) (s : state) :
  app e (mkRequest GET ["api"; "todos"; "recycled"] body) s = get_recycled s.
Proof. reflexivity. Qed.

(** Opening the recycle bin lists the Recycle Set as it stands, and
    changes the store as a purge of the identifier "cleanup" would. *)
Lemma showRecycleBin_unswept (e1 e2 : env) (s : state) :
  showRecycleBin e1 e2 s = ((delete_todo "cleanup" s).1, RECYCLED_FILE s).
Proof.
  unfold showRecycleBin, ApiService.getRecycledTasks, ApiService.cleanupRecycleBin, fetch.
  rewrite recycled_route. unfold get_recycled. cbn [ok status_of].
  change ((200 <=? 200) && (200 <=? 299)) with true. cbv iota beta.
  rewrite cleanup_route_shadowed.
  by destruct (delete_todo "cleanup" s).
Qed.

(** C9 (the code at a failing input): the Recycle Set holds one task,
    recycled forty days before the recycle bin is opened.  The cleanup
    handler run directly would discard it, yet opening the recycle bin
    lists it and leaves it in the store. *)
Theorem showRecycleBin_lists_stale :
  let e := Samples.at_ "" (Samples.T + 40 * msPerDay) in
  new_Date (server e) (Samples.old !! "deletedAt") = Some Samples.T
  ∧ (delete_cleanup e Samples.bin).1 = mkState [] []
  ∧ showRecycleBin e e Samples.bin = (Samples.bin, [Samples.old]).
Proof.
  split_and!.
  - vm_compute. reflexivity.
  - vm_compute. reflexivity.
  - rewrite showRecycleBin_unswept. vm_compute. reflexivity.
Qed.

(** C8 (as the code has it): when the trimmed title is empty, the Save
    and Update handlers of the forms raise the alert and send no
    request, so the store is left as it was; the server's creation
    handler itself checks nothing and appends a record whatever the body
    holds. *)
Theorem empty_title_stopped_by_forms (e : env) (clientNow : Z) (t : task)
  (taskId titleInput dueDateInput categorySelect : string) (s : state) :
  trim titleInput = "" →
  saveButton_click e clientNow titleInput dueDateInput categorySelect s =
    (s, Some "Please enter a task title")
  ∧ updateButton_click e t taskId titleInput dueDateInput categorySelect s =
      (s, Some "Please enter a task title")
  ∧ (∀ body, length (TODOS_FILE (post_todos e body s).1) =
             S (length (TODOS_FILE s))).
Proof.
  intros Ht. unfold saveButton_click, updateButton_click. rewrite Ht. simpl.
  split_and!; try done.
  intros body. unfold post_todos, readTodos. simpl.
  rewrite length_app. simpl. lia.
Qed.

End Presentation.

(** ** The properties on the sample data *)

Section OnSamples.
Import Samples Storage App.

(** A task recycled at [T] survives the server's sweep one second short
    of the retention window and is discarded one second past it. *)
Example sweep_one_second_either_side :
  let s := (patch_recycle (at_ "" T) "a" (mkState [plain_a] [])).1 in
  length (RECYCLED_FILE (delete_cleanup (at_ "" (T + retentionWindow - 1000)) s).1) = 1%nat
  ∧ length (RECYCLED_FILE (delete_cleanup (at_ "" (T + retentionWindow + 1000)) s).1) = 0%nat.
Proof. cbv zeta. split; vm_compute; reflexivity. Qed.

(** Of three tasks recycled 40, 20 and 5 days ago the sweep discards
    exactly the first. *)
Example sweep_three_tasks :
  let r (d : Z) : task :=
    {[ "id" := JStr "x"; "deletedAt" := JStr (toISOString (T - d * msPerDay)) ]} in
  delete_cleanup (at_ "" T) (mkState [] [r 40; r 20; r 5]) =
    (mkState [] [r 20; r 5], Json_cleanup 200 1).
Proof. cbv zeta. vm_compute. reflexivity. Qed.

(** Create "Buy milk", recycle it, restore it. *)
Example buy_milk_scenario :
  length (TODOS_FILE recycled) = 0%nat
  ∧ (λ t : task, t !! "deletedAt") <$> RECYCLED_FILE recycled =
      [Some (JStr "2023-11-14T22:13:21.000Z")]
  ∧ let s := (patch_restore (at_ "" (T + 2000)) "u1" recycled).1 in
    RECYCLED_FILE s = []
    ∧ (λ t : task, (t !! "title", t !! "deletedAt")) <$> TODOS_FILE s =
        [(Some (JStr "Buy milk"), None)].
Proof. vm_compute. split_and!; reflexivity. Qed.

(** Across the end of daylight saving time the window is an hour
    longer: in New York, on 14 November 2023, a task recycled thirty days
    and thirty minutes earlier survives the server's sweep, which on a
    host on UTC discards it. *)
Example sweep_across_clock_change :
  let r : task :=
    {[ "id" := JStr "x";
       "deletedAt" := JStr (toISOString (T - retentionWindow - 1800000)) ]} in
  sweepWindow new_york T = Some (retentionWindow + 3600000)
  ∧ delete_cleanup (mkEnv "" T new_york) (mkState [] [r]) =
      (mkState [] [r], Json_cleanup 200 0)
  ∧ delete_cleanup (mkEnv "" T utc) (mkState [] [r]) =
      (mkState [] [], Json_cleanup 200 1).
Proof. cbv zeta. split_and!; vm_compute; reflexivity. Qed.



Lemma recycle_then_restore_witness :
  let s := mkState [buy_milk; plain_a] [] in
  findIndex "a" (TODOS_FILE s) = Some (1%nat, plain_a)
  ∧ ¬ present "a" (RECYCLED_FILE s)
  ∧ ∃ t2,
      patch_restore (at_ "" (T + 1000)) "a" (patch_recycle (at_ "" T) "a" s).1 =
        (mkState (delete 1%nat (TODOS_FILE s) ++ [t2]) (RECYCLED_FILE s),
         Json_task 200 t2) ∧
      t2 !! "deletedAt" = None ∧
      t2 !! "restoredAt" = Some (JStr (toISOString (now (at_ "" (T + 1000))))) ∧
      (∀ k, k ≠ "deletedAt" → k ≠ "restoredAt" → t2 !! k = plain_a !! k).
Proof.
  cbv zeta. assert (Hn : ¬ present "a" []).
  { intros (t & Hin & _). by apply not_elem_of_nil in Hin. }
  split_and!; [vm_compute; reflexivity|exact Hn|].
  apply (recycle_then_restore (at_ "" T) (at_ "" (T + 1000)) "a"
           (mkState [buy_milk; plain_a] []) 1 plain_a);
    [vm_compute; reflexivity|exact Hn].
Defined.


Lemma empty_title_stopped_by_forms_witness :
  let e := at_ "u2" (T + 1000) in
  trim "   " = ""
  ∧ (saveButton_click e T "   " "" "none" created =
       (created, Some "Please enter a task title")
     ∧ updateButton_click e buy_milk "u1" "   " "" "none" created =
         (created, Some "Please enter a task title")
     ∧ (∀ body, length (TODOS_FILE (post_todos e body created).1) =
                S (length (TODOS_FILE created)))).
Proof.
  cbv zeta. split; [reflexivity|].
  apply (empty_title_stopped_by_forms (at_ "u2" (T + 1000)) T buy_milk "u1"
           "   " "" "none" created).
  reflexivity.
Defined.





(** Against C5 as stated: "Buy milk" is created and recycled, and a
    task "Copy" is created whose body names its identifier.  Deleting
    that identifier recycles "Copy"; restoring it brings back "Buy milk",
    the first recycled record that answers to it, and "Copy" stays in the
    recycle bin. *)
Lemma restore_returns_older_record :
  let s := (run (at_ "u2" (T + 2000)) (OpCreate copy_of_u1) recycled).1 in
  let s' := (patch_recycle (at_ "" (T + 3000)) "u1" s).1 in
  reachable s
  ∧ (∃ t, findIndex "u1" (TODOS_FILE s) = Some (0%nat, t)
          ∧ t !! "title" = Some (JStr "Copy"))
  ∧ (∃ t2, (patch_restore (at_ "" (T + 4000)) "u1" s').2 = Json_task 200 t2
           ∧ t2 !! "title" = Some (JStr "Buy milk"))
  ∧ (λ t : task, t !! "title")
      <$> TODOS_FILE (patch_restore (at_ "" (T + 4000)) "u1" s').1 =
      [Some (JStr "Buy milk")]
  ∧ (λ t : task, t !! "title")
      <$> RECYCLED_FILE (patch_restore (at_ "" (T + 4000)) "u1" s').1 =
      [Some (JStr "Copy")].
Proof.
  cbv zeta. split_and!.
  - apply reachable_step, reachable_step, reachable_step, reachable_init.
  - eexists. split; vm_compute; reflexivity.
  - eexists. split; vm_compute; reflexivity.
  - vm_compute. reflexivity.
  - vm_compute. reflexivity.
Qed.


(** Against C8 as stated: the server stores a task whose title is empty,
    and an edit to the empty title is carried out. *)
Lemma server_accepts_empty_title :
  let e := at_ "u2" (T + 1000) in
  let body : task := {[ "title" := JStr "" ]} in
  (∃ t, post_todos e body init = (mkState [t] [], Json_task 201 t)
        ∧ t !! "title" = Some (JStr ""))
  ∧ (λ t : task, t !! "title") <$> TODOS_FILE created = [Some (JStr "Buy milk")]
  ∧ (λ t : task, t !! "title") <$> TODOS_FILE (put_todo e "u1" body created).1 =
      [Some (JStr "")].
Proof.
  cbv zeta. split_and!.
  - eexists. split; [reflexivity|vm_compute; reflexivity].
  - vm_compute. reflexivity.
  - vm_compute. reflexivity.
Qed.


End OnSamples.

(** * Further properties *)

(** ** Editing, toggling and creating on the server *)

Section ServerEdits.

Lemma has_id_lookup id (t : task) : has_id id t → t !! "id" = Some (JStr id).
Proof.
  unfold has_id, strict_eq_string.
  destruct (t !! "id") as [[| | |s'| |]|]; try done.
  intros H. apply Is_true_true, String.eqb_eq in H. by subst.
Qed.

Lemma findIndex_first id (l : list task) i t :
  findIndex id l = Some (i, t) →
  ∀ j u, (j < i)%nat → l !! j = Some u → ¬ has_id id u.
Proof.
  unfold findIndex. intros H j u Hj Hu.
  apply list_find_Some in H as (_ & _ & Hfirst). by apply (Hfirst j u).
Qed.

(** Replacing the record found by one that answers to the same
    identifier leaves it the record found. *)
Lemma findIndex_insert id (l : list task) i t t' :
  findIndex id l = Some (i, t) → has_id id t' →
  findIndex id (<[i := t']> l) = Some (i, t').
Proof.
  unfold findIndex. intros H Hid. apply list_find_Some in H as (Hl & _ & Hfirst).
  apply list_find_Some. split_and!; [|done|].
  - apply list_lookup_insert_eq. by apply lookup_lt_Some in Hl.
  - intros j y Hy Hj. rewrite list_lookup_insert_ne in Hy by lia.
    by apply (Hfirst j y).
Qed.

(** X1: an edit of an identifier present in the Active Set replaces, in
    place, the first record that answers to it by its merge with the
    body: [updatedAt] holds the current time, every other field named by
    the body holds the body's value, every field the body does not name
    is as it was; the Recycle Set is untouched.  An identifier absent
    from the Active Set is answered by 404 and the store is left as it
    was. *)
Theorem edit_merges_fields (e : env) (id : string) (body : task) (s : state) :
  (present id (TODOS_FILE s) →
     ∃ i t t',
       TODOS_FILE s !! i = Some t ∧ has_id id t ∧
       (∀ j u, (j < i)%nat → TODOS_FILE s !! j = Some u → ¬ has_id id u) ∧
       put_todo e id body s =
         (mkState (<[i := t']> (TODOS_FILE s)) (RECYCLED_FILE s),
          Json_task 200 t') ∧
       t' !! "updatedAt" = Some (JStr (toISOString (now e))) ∧
       (∀ k v, k ≠ "updatedAt" → body !! k = Some v → t' !! k = Some v) ∧
       (∀ k, k ≠ "updatedAt" → body !! k = None → t' !! k = t !! k))
  ∧ (¬ present id (TODOS_FILE s) →
       put_todo e id body s = (s, Json_error 404 "Todo not found")).
Proof.
  split.
  - intros Hp. apply findIndex_present in Hp as (i & t & Hf).
    destruct (findIndex_Some _ _ _ _ Hf) as [Hl Hid].
    exists i, t, (<["updatedAt" := JStr (toISOString (now e))]> (body ∪ t)).
    split_and!; try done.
    + by apply (findIndex_first id _ i t).
    + unfold put_todo, readTodos. by rewrite Hf.
    + apply lookup_insert_eq.
    + intros k v Hk Hb. rewrite lookup_insert_ne by done.
      by apply lookup_union_Some_l.
    + intros k Hk Hb. rewrite lookup_insert_ne by done.
      by apply lookup_union_r.
  - intros Hn. apply findIndex_absent in Hn.
    unfold put_todo, readTodos. by rewrite Hn.
Qed.

(** X2: toggling the same identifier twice leaves the record in its
    place with [completed] holding, as a boolean, the truth value it had
    at first, [updatedAt] holding the time of the second toggle, and
    every other field as it was. *)
Theorem toggle_twice (e1 e2 : env) (id : string) (s : state) (i : nat)
  (t : task) :
  findIndex id (TODOS_FILE s) = Some (i, t) →
  ∃ t2,
    patch_toggle e2 id (patch_toggle e1 id s).1 =
      (mkState (<[i := t2]> (TODOS_FILE s)) (RECYCLED_FILE s),
       Json_task 200 t2) ∧
    t2 !! "completed" = Some (JBool (ToBoolean (t !! "completed"))) ∧
    t2 !! "updatedAt" = Some (JStr (toISOString (now e2))) ∧
    (∀ k, k ≠ "completed" → k ≠ "updatedAt" → t2 !! k = t !! k).
Proof.
  intros Hf. destruct (findIndex_Some _ _ _ _ Hf) as [Hl Hid].
  set (t1 := <["updatedAt" := JStr (toISOString (now e1))]>
               (<["completed" := JBool (negb (ToBoolean (t !! "completed")))]> t)).
  assert (Hid1 : has_id id t1).
  { unfold t1, has_id. by rewrite !lookup_insert_ne. }
  pose proof (findIndex_insert id _ i t t1 Hf Hid1) as Hf1.
  eexists. split_and!.
  - assert (H1 : (patch_toggle e1 id s).1 =
                   mkState (<[i := t1]> (TODOS_FILE s)) (RECYCLED_FILE s))
      by (unfold patch_toggle, readTodos; by rewrite Hf).
    rewrite H1. unfold patch_toggle, readTodos. cbn [TODOS_FILE]. rewrite Hf1.
    unfold writeTodos. cbn [TODOS_FILE RECYCLED_FILE].
    rewrite list_insert_insert_eq. reflexivity.
  - rewrite lookup_insert_ne by done. rewrite lookup_insert_eq.
    unfold t1. rewrite lookup_insert_ne by done. rewrite lookup_insert_eq.
    simpl. by rewrite negb_involutive.
  - apply lookup_insert_eq.
  - intros k Hc Hu. unfold t1. by rewrite !lookup_insert_ne.
Qed.

(** X3: a creation appends one record and touches no other; the record
    holds the server's clock under [createdAt] whatever the body held
    there, every other field of the body as the body has it, the
    generated identifier when the body names none, and nothing else. *)
Theorem create_keeps_body (e : env) (body : task) (s : state) :
  ∃ t,
    post_todos e body s =
      (mkState (TODOS_FILE s ++ [t]) (RECYCLED_FILE s), Json_task 201 t) ∧
    t !! "createdAt" = Some (JStr (toISOString (now e))) ∧
    (∀ k v, k ≠ "createdAt" → body !! k = Some v → t !! k = Some v) ∧
    (body !! "id" = None → t !! "id" = Some (JStr (uuid e))) ∧
    (∀ k, k ≠ "createdAt" → k ≠ "id" → body !! k = None → t !! k = None).
Proof.
  eexists. split_and!; [reflexivity|..].
  - apply lookup_insert_eq.
  - intros k v Hk Hb. rewrite lookup_insert_ne by done.
    by apply lookup_union_Some_l.
  - intros Hb. rewrite lookup_insert_ne by done.
    rewrite lookup_union_r by done. apply lookup_singleton_eq.
  - intros k Hc Hi Hb. rewrite lookup_insert_ne by done.
    rewrite lookup_union_r by done. by apply lookup_singleton_ne.
Qed.

End ServerEdits.

(** ** Routing *)

Section Routing.

Lemma match_id_path (id : string) (tail : list segment) (rest : list string) :
  id ≠ "" →
  match_path (Lit "api" :: Lit "todos" :: Param "id" :: tail)
             ("api" :: "todos" :: id :: rest) =
  <["id" := id]> <$> match_path tail rest.
Proof.
  intros Hid. cbn [match_path]. change (String.eqb "api" "api") with true.
  change (String.eqb "todos" "todos") with true. cbv iota.
  apply String.eqb_neq in Hid. by rewrite Hid.
Qed.

Lemma param_id (id : string) : param (<["id" := id]> ∅) "id" = id.
Proof. unfold param. by rewrite lookup_insert_eq. Qed.

Lemma cleanup_path_is_id_path (path : list string) :
  match_path [Lit "api"; Lit "todos"; Param "id"] path = None →
  match_path [Lit "api"; Lit "todos"; Lit "cleanup"] path = None.
Proof.
  destruct path as [|a [|b [|c [|d rest]]]]; try done; cbn [match_path].
  - destruct (String.eqb "api" a); [|done].
    destruct (String.eqb "todos" b); [|done].
    destruct (String.eqb c "") eqn:Ec; [|done].
    apply String.eqb_eq in Ec. by subst.
  - destruct (String.eqb "api" a); [|done].
    destruct (String.eqb "todos" b); [|done].
    by destruct (String.eqb c ""), (String.eqb "cleanup" c).
Qed.

(** X4: no request runs the cleanup handler: the server answers every
    request as it would with the cleanup route left out, because a path
    that matches /api/todos/cleanup matches /api/todos/:id, registered
    before it for the same method. *)
Theorem cleanup_route_dead (e : env) (req : request) (s : state) :
  app e req s = dispatch (take 8 routes) e req s.
Proof.
  unfold app, routes. cbn [take].
  destruct req as [m path body]. cbn [dispatch route_method route_path
    route_handler req_method req_path req_body].
  destruct m; cbn [method_eqb]; cbv iota; try reflexivity.
  destruct (match_path [Lit "api"; Lit "todos"; Param "id"] path) eqn:E;
    [reflexivity|].
  by rewrite (cleanup_path_is_id_path path E).
Qed.

Lemma path_component_nonempty (id : string) :
  App.path_component id → id ≠ "".
Proof.
  unfold App.path_component. intros H Hid. subst id. done.
Qed.




End Routing.

(** ** What the sweep leaves and what the operations conserve *)

Section SweepAndCount.
Import Storage.

(** X6: a recycled record whose [deletedAt] is missing, or is not read
    as a date by the host that sweeps, is discarded by either sweep,
    whenever it runs. *)
Theorem sweep_discards_unstamped (e : env) (s : state) (browser : host)
  (ls : localStorage) (t : task) :
  new_Date (server e) (t !! "deletedAt") = None →
  new_Date browser (t !! "deletedAt") = None →
  (t ∉ RECYCLED_FILE (delete_cleanup e s).1)
  ∧ (t ∉ getRecycledTasks (cleanupRecycleBin browser (now e) ls).1).
Proof.
  intros Hd Hdb. split.
  - unfold delete_cleanup, readRecycled. simpl.
    rewrite list_elem_of_filter. unfold Server.cleanup_keeps. rewrite Hd.
    by intros [? _].
  - unfold cleanupRecycleBin. cbn [fst]. rewrite getRecycledTasks_insert.
    rewrite list_elem_of_filter. unfold Storage.cleanup_keeps. rewrite Hdb.
    by intros [? _].
Qed.

(** X7: the server's sweep leaves the Active Set as it was and keeps the
    recycled records that remain in their order; each of them carries a
    [deletedAt] that the server reads as an instant no further back than
    the window of the sweep, which is the retention window when the
    server's offset from UTC is the same at both ends; the count reported
    is the number of records discarded. *)
Theorem sweep_leaves_fresh (e : env) (s : state) :
  TODOS_FILE (delete_cleanup e s).1 = TODOS_FILE s
  ∧ RECYCLED_FILE (delete_cleanup e s).1 `sublist_of` RECYCLED_FILE s
  ∧ (∀ t : task, t ∈ RECYCLED_FILE (delete_cleanup e s).1 →
       ∃ d w, new_Date (server e) (t !! "deletedAt") = Some d
              ∧ sweepWindow (server e) (now e) = Some w
              ∧ now e - d ≤ w
              ∧ (same_offset (server e) (now e) → w = retentionWindow))
  ∧ (delete_cleanup e s).2 =
      Json_cleanup 200
        (Z.of_nat (length (RECYCLED_FILE s)
                   - length (RECYCLED_FILE (delete_cleanup e s).1))).
Proof.
  unfold delete_cleanup, readRecycled. cbn [fst snd TODOS_FILE RECYCLED_FILE
    writeRecycled].
  split_and!; [done|apply sublist_filter| |].
  - intros t Ht. apply list_elem_of_filter in Ht as [Hk _].
    unfold Server.cleanup_keeps in Hk.
    destruct (new_Date (server e) (t !! "deletedAt")) as [d|] eqn:Hd; [|done].
    destruct (setDate_minus_30 (server e) (now e)) as [c|] eqn:Hc; [|done].
    assert (Hw : sweepWindow (server e) (now e) = Some (now e - c))
      by (unfold sweepWindow; by rewrite Hc).
    exists d, (now e - c). split_and!; [done|done| |].
    + apply Is_true_true, Z.leb_le in Hk. lia.
    + by apply (sweepWindow_same_offset (server e) (now e)).
  - f_equal.
    pose proof (length_filter
      (λ todo : task,
         Server.cleanup_keeps (server e) (setDate_minus_30 (server e) (now e))
           todo)
      (RECYCLED_FILE s)).
    lia.
Qed.

(** X8: a creation adds one record to the store; an edit, a toggle, a
    deletion to the recycle bin and a restoration leave the number of
    records of the two sets together as it was; a purge and a sweep
    never add a record. *)
Theorem records_conserved (e : env) (o : op) (s : state) :
  let total (s : state) :=
    (length (TODOS_FILE s) + length (RECYCLED_FILE s))%nat in
  match o with
  | OpCreate _ => total (run e o s).1 = S (total s)
  | OpEdit _ _ | OpToggle _ | OpDelete _ | OpRestore _ =>
      total (run e o s).1 = total s
  | OpPurge _ | OpSweep => (total (run e o s).1 ≤ total s)%nat
  end.
Proof.
  cbv zeta. destruct o as [body|id body|id|id|id|id|]; cbn [run].
  - unfold post_todos, readTodos. simpl. rewrite length_app. simpl. lia.
  - unfold put_todo, readTodos.
    destruct (findIndex id (TODOS_FILE s)) as [[i t]|]; [|done].
    simpl. by rewrite length_insert.
  - unfold patch_toggle, readTodos.
    destruct (findIndex id (TODOS_FILE s)) as [[i t]|]; [|done].
    simpl. by rewrite length_insert.
  - unfold patch_recycle, readTodos, readRecycled.
    destruct (findIndex id (TODOS_FILE s)) as [[i t]|] eqn:Hf; [|done].
    apply findIndex_Some in Hf as [Hl _]. simpl.
    rewrite length_app, length_delete by eauto. simpl.
    apply lookup_lt_Some in Hl. lia.
  - unfold patch_restore, readTodos, readRecycled.
    destruct (findIndex id (RECYCLED_FILE s)) as [[i t]|] eqn:Hf; [|done].
    apply findIndex_Some in Hf as [Hl _]. simpl.
    rewrite length_app, length_delete by eauto. simpl.
    apply lookup_lt_Some in Hl. lia.
  - unfold delete_todo, readRecycled.
    destruct (findIndex id (RECYCLED_FILE s)) as [[i t]|] eqn:Hf; [|done].
    apply findIndex_Some in Hf as [Hl _]. simpl.
    rewrite length_delete by eauto. lia.
  - unfold delete_cleanup, readRecycled. simpl.
    pose proof (length_filter
      (λ todo : task,
         Server.cleanup_keeps (server e) (setDate_minus_30 (server e) (now e))
           todo)
      (RECYCLED_FILE s)).
    lia.
Qed.

End SweepAndCount.

(** ** [deletedAt] and the recycle bin *)

Section DeletedAt.

Lemma elem_of_insert_inv {A} (l : list A) i x y :
  y ∈ <[i := x]> l → y = x ∨ y ∈ l.
Proof.
  rewrite !list_elem_of_lookup. intros [j Hj].
  apply list_lookup_insert_Some in Hj as [(-> & -> & _)|[_ Hj]]; eauto.
Qed.

Lemma deletedAt_tracks_bin_init h : deletedAt_tracks_bin h init.
Proof. split; intros t Ht; by apply not_elem_of_nil in Ht. Qed.

(** X9: when [deletedAt] is carried by no record of the Active Set and
    reads as an instant on every record of the Recycle Set, this is
    still so after any operation whose body does not mention
    [deletedAt], deletions being stamped by a clock that reads a valid
    instant; this on whatever host the dates are read. *)
Theorem deletedAt_kept_in_bin (h : host) (e : env) (o : op) (s : state) :
  deletedAt_tracks_bin h s → tidy e o → deletedAt_tracks_bin h (run e o s).1.
Proof.
  intros [Ha Hr] Ht.
  destruct o as [body|id body|id|id|id|id|]; cbn [run tidy] in *.
  - unfold post_todos, readTodos. split; [|done]. cbn [fst TODOS_FILE writeTodos].
    intros t [Hin| ->%list_elem_of_singleton]%elem_of_app; [by apply Ha|].
    rewrite lookup_insert_ne by done. rewrite lookup_union_l by done. done.
  - unfold put_todo, readTodos.
    destruct (findIndex id (TODOS_FILE s)) as [[i u]|] eqn:Hf; [|done].
    apply findIndex_Some in Hf as [Hl _]. split; [|done].
    cbn [fst TODOS_FILE writeTodos].
    intros t [->|Hin]%elem_of_insert_inv; [|by apply Ha].
    rewrite lookup_insert_ne by done. rewrite lookup_union_r by done.
    apply Ha, list_elem_of_lookup. eauto.
  - unfold patch_toggle, readTodos.
    destruct (findIndex id (TODOS_FILE s)) as [[i u]|] eqn:Hf; [|done].
    apply findIndex_Some in Hf as [Hl _]. split; [|done].
    cbn [fst TODOS_FILE writeTodos].
    intros t [->|Hin]%elem_of_insert_inv; [|by apply Ha].
    rewrite !lookup_insert_ne by done.
    apply Ha, list_elem_of_lookup. eauto.
  - unfold patch_recycle, readTodos, readRecycled.
    destruct (findIndex id (TODOS_FILE s)) as [[i u]|] eqn:Hf; [|done].
    split; cbn [fst TODOS_FILE RECYCLED_FILE writeTodos writeRecycled].
    + intros t Hin%list_elem_of_delete_inv. by apply Ha.
    + intros t [Hin| ->%list_elem_of_singleton]%elem_of_app; [by apply Hr|].
      exists (now e). rewrite lookup_insert_eq. by apply new_Date_stamp.
  - unfold patch_restore, readTodos, readRecycled.
    destruct (findIndex id (RECYCLED_FILE s)) as [[i u]|] eqn:Hf; [|done].
    split; cbn [fst TODOS_FILE RECYCLED_FILE writeTodos writeRecycled].
    + intros t [Hin| ->%list_elem_of_singleton]%elem_of_app; [by apply Ha|].
      rewrite lookup_insert_ne by done. apply lookup_delete_eq.
    + intros t Hin%list_elem_of_delete_inv. by apply Hr.
  - unfold delete_todo, readRecycled.
    destruct (findIndex id (RECYCLED_FILE s)) as [[i u]|] eqn:Hf; [|done].
    split; [done|]. cbn [fst RECYCLED_FILE writeRecycled].
    intros t Hin%list_elem_of_delete_inv. by apply Hr.
  - unfold delete_cleanup, readRecycled. split; [done|].
    cbn [fst RECYCLED_FILE writeRecycled].
    intros t [_ Hin]%list_elem_of_filter. by apply Hr.
Qed.

(** X10: when [id] designates a record of the Active Set and no record
    of the Recycle Set answers to [id], deleting [id] and then purging
    it returns the record with its [deletedAt] stamp and leaves the
    store as it was but for that record, gone from both sets. *)
Theorem recycle_then_purge (e : env) (id : string) (s : state)
  (i : nat) (t : task) :
  findIndex id (TODOS_FILE s) = Some (i, t) →
  ¬ present id (RECYCLED_FILE s) →
  delete_todo id (patch_recycle e id s).1 =
    (mkState (delete i (TODOS_FILE s)) (RECYCLED_FILE s),
     Json_task 200 (<["deletedAt" := JStr (toISOString (now e))]> t)).
Proof.
  intros Hf Hn. destruct (findIndex_Some _ _ _ _ Hf) as [Hl Hid].
  unfold patch_recycle, readTodos, readRecycled. rewrite Hf. cbn [fst].
  unfold delete_todo, readRecycled. cbn [RECYCLED_FILE writeRecycled writeTodos].
  rewrite (findIndex_snoc id (RECYCLED_FILE s) _ Hn)
    by (by rewrite has_id_recycled).
  cbn [TODOS_FILE]. by rewrite delete_snoc.
Qed.

End DeletedAt.

(** ** The storage module *)

Section StorageModule.
Import Storage.

(** A store in which a task is found holds the list of tasks under its
    key. *)
Lemma getTasks_found (taskId : string) (ls : localStorage) i t :
  list_find (λ t, has_id taskId t) (getTasks ls) = Some (i, t) →
  ls !! TASKS_STORAGE_KEY = Some (getTasks ls).
Proof.
  unfold getTasks. destruct (ls !! TASKS_STORAGE_KEY); [done|]. simpl. done.
Qed.

(** X11: [addTask] appends the task under the decimal numeral of the
    clock reading as identifier, whatever the task held there, and keeps
    its other fields; two tasks added one after the other carry the same
    identifier exactly when the clock read the same millisecond for
    both. *)
Theorem addTask_identifiers (now1 now2 : Z) (t1 t2 : task) (ls : localStorage) :
  ∃ a b : task,
    getTasks (addTask now2 t2 (addTask now1 t1 ls).1).1 = getTasks ls ++ [a; b]
    ∧ a !! "id" = Some (JStr (Date_now_toString now1))
    ∧ b !! "id" = Some (JStr (Date_now_toString now2))
    ∧ (∀ k, k ≠ "id" → a !! k = t1 !! k ∧ b !! k = t2 !! k)
    ∧ (a !! "id" = b !! "id" ↔ now1 = now2).
Proof.
  eexists _, _. split_and!.
  - unfold addTask. cbn [fst]. rewrite !getTasks_saveTasks.
    rewrite <- app_assoc. reflexivity.
  - apply lookup_insert_eq.
  - apply lookup_insert_eq.
  - intros k Hk. by rewrite !lookup_insert_ne.
  - rewrite !lookup_insert_eq. unfold Date_now_toString. split.
    + intros [= H]. by apply (inj pretty) in H.
    + by intros ->.
Qed.

(** X12: in the storage module, deleting a task that carries no
    [deletedAt] and restoring it, no recycled task answering to its
    identifier, puts the very same record back, at the end of the active
    tasks, and leaves the recycle bin as it was. *)
Theorem storage_delete_restore (now : Z) (taskId : string) (ls : localStorage)
  (i : nat) (t : task) :
  list_find (λ t, has_id taskId t) (getTasks ls) = Some (i, t) →
  t !! "deletedAt" = None →
  list_find (λ t, has_id taskId t) (getRecycledTasks ls) = None →
  getTasks (restoreTask taskId (deleteTask now taskId ls).1).1 =
    delete i (getTasks ls) ++ [t]
  ∧ getRecycledTasks (restoreTask taskId (deleteTask now taskId ls).1).1 =
      getRecycledTasks ls.
Proof.
  intros Hf Hd Hn.
  pose proof Hf as Hf'. apply list_find_Some in Hf' as (Hl & Hid & _).
  set (t' := <["deletedAt" := JStr (toISOString now)]> t).
  assert (Hid' : has_id taskId t').
  { unfold t', has_id in *. by rewrite lookup_insert_ne. }
  assert (H1 : (deleteTask now taskId ls).1 =
               saveTasks (delete i (getTasks ls))
                 (<[RECYCLED_TASKS_KEY := getRecycledTasks ls ++ [t']]> ls)).
  { unfold deleteTask. by rewrite Hf. }
  rewrite H1. unfold restoreTask.
  rewrite getRecycledTasks_saveTasks, getRecycledTasks_insert.
  rewrite list_find_app_r by done. cbn [list_find].
  destruct (decide (has_id taskId t')); [|done].
  cbn [fmap option_fmap option_map prod_map fst snd].
  rewrite Nat.add_0_l. unfold id.
  rewrite getTasks_saveTasks, delete_snoc.
  rewrite getRecycledTasks_insert, getTasks_insert_recycled, getTasks_saveTasks.
  split; [|done]. unfold t'. by rewrite delete_insert_eq, delete_id.
Qed.

(** X13: [permanentlyDeleteTask] removes from the recycle bin every
    record that answers to the identifier, not only the first, keeps the
    others and the active tasks, returns what it stored, and changes
    nothing when run again. *)
Theorem storage_purge_removes_all (taskId : string) (ls : localStorage) :
  (∀ t : task, t ∈ getRecycledTasks (permanentlyDeleteTask taskId ls).1 ↔
               t ∈ getRecycledTasks ls ∧ ¬ has_id taskId t)
  ∧ (permanentlyDeleteTask taskId ls).2 =
      getRecycledTasks (permanentlyDeleteTask taskId ls).1
  ∧ getTasks (permanentlyDeleteTask taskId ls).1 = getTasks ls
  ∧ permanentlyDeleteTask taskId (permanentlyDeleteTask taskId ls).1 =
      permanentlyDeleteTask taskId ls.
Proof.
  unfold permanentlyDeleteTask. cbn [fst snd].
  rewrite !getRecycledTasks_insert, getTasks_insert_recycled.
  split_and!; try done.
  - intros t. rewrite list_elem_of_filter.
    destruct (has_id taskId t); simpl; tauto.
  - by rewrite filter_idem, insert_insert_eq.
Qed.

(** X14: in the storage module, toggling twice a task whose [completed]
    is a boolean leaves the whole store exactly as it was. *)
Theorem storage_toggle_twice (taskId : string) (ls : localStorage)
  (i : nat) (t : task) (b : bool) :
  list_find (λ t, has_id taskId t) (getTasks ls) = Some (i, t) →
  t !! "completed" = Some (JBool b) →
  (toggleTaskStatus taskId (toggleTaskStatus taskId ls).1).1 = ls.
Proof.
  intros Hf Hb.
  pose proof (getTasks_found _ _ _ _ Hf) as Hkey.
  pose proof Hf as Hf'. apply list_find_Some in Hf' as (Hl & Hid & Hfirst).
  set (t1 := <["completed" := JBool (negb b)]> t).
  assert (Hid1 : has_id taskId t1).
  { unfold t1, has_id in *. by rewrite lookup_insert_ne. }
  assert (Hf1 : list_find (λ t, has_id taskId t) (<[i := t1]> (getTasks ls))
                = Some (i, t1)).
  { apply list_find_Some. split_and!; [|done|].
    - apply list_lookup_insert_eq. by apply lookup_lt_Some in Hl.
    - intros j y Hy Hj. rewrite list_lookup_insert_ne in Hy by lia.
      by apply (Hfirst j y). }
  assert (H1 : (toggleTaskStatus taskId ls).1 =
               saveTasks (<[i := t1]> (getTasks ls)) ls).
  { unfold toggleTaskStatus. rewrite Hf. cbn [fst]. unfold t1.
    by rewrite Hb. }
  rewrite H1. unfold toggleTaskStatus. rewrite getTasks_saveTasks, Hf1.
  cbn [fst]. rewrite list_insert_insert_eq.
  assert (Ht : <["completed" := JBool (negb (ToBoolean (t1 !! "completed")))]> t1 = t).
  { unfold t1. rewrite lookup_insert_eq. simpl. rewrite negb_involutive.
    rewrite insert_insert_eq. by apply insert_id. }
  rewrite Ht, list_insert_id by done.
  unfold saveTasks. rewrite insert_insert_eq. by apply insert_id.
Qed.

End StorageModule.

(** ** Due dates in the storage module *)

Section DueDates.
Import Storage.

Lemma SameValueZero_str (d : string) (u : json) :
  SameValueZero (JStr d) u = true ↔ u = JStr d.
Proof.
  destruct u; simpl; try (split; done).
  rewrite String.eqb_eq. split; congruence.
Qed.

Lemma due_on_lookup (d : string) (t : task) :
  due_on d t ↔ t !! "dueDate" = Some (JStr d).
Proof.
  unfold due_on, strict_eq_string.
  destruct (t !! "dueDate") as [[| | |s'| |]|]; try (split; done).
  rewrite Is_true_true, String.eqb_eq. split; congruence.
Qed.

Lemma Set_add_str (dates : list json) (v : json) (d : string) :
  JStr d ∈ Set_add dates v ↔ JStr d ∈ dates ∨ v = JStr d.
Proof.
  unfold Set_add. destruct (existsb (SameValueZero v) dates) eqn:E.
  - split; [by left|]. intros [H| ->]; [done|].
    apply existsb_exists in E as (u & Hin & Hu).
    apply SameValueZero_str in Hu as ->. by apply list_elem_of_In.
  - rewrite elem_of_app, list_elem_of_singleton.
    split; (intros [?|?]; [by left|by right]).
Qed.

Lemma add_dueDate_str (dates : list json) (t : task) (d : string) :
  JStr d ∈ add_dueDate dates t ↔ JStr d ∈ dates ∨ (d ≠ "" ∧ due_on d t).
Proof.
  unfold add_dueDate. rewrite due_on_lookup.
  destruct (t !! "dueDate") as [v|] eqn:Ev;
    [|split; [by left|intros [?|[_ ?]]; done]].
  destruct (ToBoolean (Some v)) eqn:Eb.
  - rewrite Set_add_str.
    split; [|intros [?|[_ ?]]; [by left|right; congruence]].
    intros [H| ->]; [by left|right]. split; [|done].
    simpl in Eb. intros ->. done.
  - split; [by left|]. intros [H|[Hd [= ->]]]; [done|].
    simpl in Eb. apply negb_false_iff, String.eqb_eq in Eb. done.
Qed.

Lemma foldl_add_dueDate_str (l : list task) (acc : list json) (d : string) :
  JStr d ∈ foldl add_dueDate acc l ↔
  JStr d ∈ acc ∨ (d ≠ "" ∧ ∃ t, t ∈ l ∧ due_on d t).
Proof.
  revert acc. induction l as [|t l IH]; intros acc; simpl.
  - split; [by left|]. intros [H|(_ & t & Ht & _)]; [done|].
    by apply not_elem_of_nil in Ht.
  - rewrite IH, add_dueDate_str. split.
    + intros [[H|[Hd Ht]]|(Hd & u & Hu & Hdu)]; [by left|right..].
      * split; [done|]. exists t. split; [left|done].
      * split; [done|]. exists u. split; [by right|done].
    + intros [H|(Hd & u & Hu & Hdu)]; [by left; left|].
      apply elem_of_cons in Hu as [->|Hu]; [by left; right|].
      right. split; [done|]. by exists u.
Qed.

Lemma Set_add_listed_once (dates : list json) (v : json) :
  listed_once dates → listed_once (Set_add dates v).
Proof.
  intros H. unfold Set_add.
  destruct (existsb (SameValueZero v) dates) eqn:E; [done|].
  assert (Hfresh : ∀ d, v = JStr d → JStr d ∉ dates).
  { intros d -> Hin. apply not_true_iff_false in E. apply E.
    apply existsb_exists. exists (JStr d). split; [by apply list_elem_of_In|].
    by apply SameValueZero_str. }
  intros i j d Hi Hj.
  apply lookup_snoc_Some in Hi as [[Hi1 Hi2]|[Hi1 Hi2]];
    apply lookup_snoc_Some in Hj as [[Hj1 Hj2]|[Hj1 Hj2]]; try lia.
  - by apply (H i j d).
  - exfalso. apply (Hfresh d); [done|]. apply list_elem_of_lookup. eauto.
  - exfalso. apply (Hfresh d); [done|]. apply list_elem_of_lookup. eauto.
Qed.

Lemma foldl_add_dueDate_listed_once (l : list task) (acc : list json) :
  listed_once acc → listed_once (foldl add_dueDate acc l).
Proof.
  revert acc. induction l as [|t l IH]; intros acc Hacc; simpl; [done|].
  apply IH. unfold add_dueDate.
  destruct (t !! "dueDate") as [v|]; [|done].
  destruct (ToBoolean (Some v)); [|done]. by apply Set_add_listed_once.
Qed.

(** X15: a string is among the dates [getDatesWithTasks] returns exactly
    when it is not empty and [getTasksByDate] finds a task due on it;
    and it is returned at one position only. *)
Theorem dates_with_tasks (d : string) (ls : localStorage) :
  (JStr d ∈ getDatesWithTasks ls ↔ d ≠ "" ∧ getTasksByDate d ls ≠ [])
  ∧ (∀ i j, getDatesWithTasks ls !! i = Some (JStr d) →
            getDatesWithTasks ls !! j = Some (JStr d) → i = j).
Proof.
  split.
  - unfold getDatesWithTasks, getTasksByDate. rewrite foldl_add_dueDate_str.
    split.
    + intros [H|(Hd & t & Ht & Hdu)]; [by apply not_elem_of_nil in H|].
      split; [done|]. intros Hnil.
      assert (Hin : t ∈ filter (λ t : task, due_on d t) (getTasks ls))
        by (by apply list_elem_of_filter).
      rewrite Hnil in Hin. by apply not_elem_of_nil in Hin.
    + intros [Hd Hne]. right. split; [done|].
      destruct (filter (λ t : task, due_on d t) (getTasks ls)) as [|t r] eqn:E;
        [done|].
      assert (Hin : t ∈ filter (λ t : task, due_on d t) (getTasks ls))
        by (rewrite E; left).
      apply list_elem_of_filter in Hin as [Hdu Hin]. by exists t.
  - intros i j. apply (foldl_add_dueDate_listed_once (getTasks ls) []).
    intros ? ? ? H. by rewrite lookup_nil in H.
Qed.

End DueDates.

(** ** The task list and the forms of the browser application *)

Section Browser.
Import App.

Lemma getTasks_reads (e : env) (s : state) :
  ApiService.getTasks e s = (s, TODOS_FILE s).
Proof. reflexivity. Qed.

Lemma app_put (e : env) (id : string) (body : task) (s : state) :
  id ≠ "" →
  app e (mkRequest PUT ["api"; "todos"; id] body) s = put_todo e id body s.
Proof.
  intros Hid. unfold app, routes.
  cbn [dispatch route_method route_path route_handler req_method req_path
    req_body method_eqb]. cbv iota.
  rewrite (match_id_path id _ _ Hid). reflexivity.
Qed.

Lemma updateTask_state (e : env) (id : string) (body : task) (s : state) :
  id ≠ "" → (ApiService.updateTask e id body s).1 = (put_todo e id body s).1.
Proof.
  intros Hid. unfold ApiService.updateTask, fetch. rewrite (app_put e id body s Hid).
  by destruct (put_todo e id body s).
Qed.

Lemma editTask_Some (e : env) (taskId : string) (s : state) (t : task) :
  editTask e taskId s = Some t → has_id taskId t ∧ t ∈ TODOS_FILE s.
Proof.
  unfold editTask. rewrite getTasks_reads. cbn [snd].
  destruct (list_find (λ t, has_id taskId t) (TODOS_FILE s)) as [[i u]|] eqn:Hf;
    [|done].
  intros [= <-]. apply list_find_Some in Hf as (Hl & Hid & _).
  split; [done|]. apply list_elem_of_lookup. eauto.
Qed.

Lemma Is_true_negb (b : bool) : negb b ↔ ¬ b.
Proof. destruct b; simpl; tauto. Qed.

(** X16: the task list shows tasks of the Active Set only, in their
    order, and all of them under the tab "all" with no category chosen;
    whatever the category, each task shown under "all" is shown under
    exactly one of the tabs "completed" and "active". *)
Theorem renderTasks_tabs (currentFilter currentCategory : string) (e : env)
  (s : state) :
  renderTasks currentFilter currentCategory e s `sublist_of` TODOS_FILE s
  ∧ renderTasks "all" "none" e s = TODOS_FILE s
  ∧ renderTasks "completed" currentCategory e s
      ++ renderTasks "active" currentCategory e s
    ≡ₚ renderTasks "all" currentCategory e s.
Proof.
  unfold renderTasks. rewrite getTasks_reads. cbn [snd]. split_and!.
  - destruct (negb (String.eqb currentCategory "none"));
      destruct (String.eqb currentFilter "completed");
      destruct (String.eqb currentFilter "active");
      try done; try apply sublist_filter;
      (etrans; [apply sublist_filter|apply sublist_filter]).
  - reflexivity.
  - change (String.eqb "completed" "completed") with true.
    change (String.eqb "active" "completed") with false.
    change (String.eqb "active" "active") with true.
    change (String.eqb "all" "completed") with false.
    change (String.eqb "all" "active") with false. cbv iota.
    assert (Hsplit :
      filter (λ t : task, ToBoolean (t !! "completed")) (TODOS_FILE s)
      ++ filter (λ t : task, negb (ToBoolean (t !! "completed"))) (TODOS_FILE s)
      ≡ₚ TODOS_FILE s).
    { rewrite (list_filter_iff
        (λ t : task, negb (ToBoolean (t !! "completed")))
        (λ t : task, ¬ ToBoolean (t !! "completed")))
        by (intros t; apply Is_true_negb).
      apply filter_app_complement. }
    destruct (negb (String.eqb currentCategory "none")); [|done].
    by rewrite <- filter_app, Hsplit.
Qed.

(** X17: the Update button of the edit form, opened on a task found
    under [taskId], an identifier that a URL carries unchanged as one
    path component, never changes an identifier of the Active Set nor
    the Recycle Set, whatever has happened to the store since the form
    was opened: the body it sends carries the identifier the task is
    looked up by. *)
Theorem edit_form_keeps_identifiers (e1 e2 : env) (s s' : state) (t : task)
  (taskId titleInput dueDateInput categorySelect : string) :
  path_component taskId →
  editTask e1 taskId s = Some t →
  ids (TODOS_FILE
         (updateButton_click e2 t taskId titleInput dueDateInput
            categorySelect s').1) = ids (TODOS_FILE s')
  ∧ RECYCLED_FILE
      (updateButton_click e2 t taskId titleInput dueDateInput
         categorySelect s').1 = RECYCLED_FILE s'.
Proof.
  intros Hne%path_component_nonempty Hopen.
  apply editTask_Some in Hopen as [Hid _].
  apply has_id_lookup in Hid.
  unfold updateButton_click.
  destruct (String.eqb (trim titleInput) ""); [done|]. cbn [fst].
  rewrite updateTask_state by done.
  unfold put_todo, readTodos.
  destruct (findIndex taskId (TODOS_FILE s')) as [[i cur]|] eqn:Hf; [|done].
  apply findIndex_Some in Hf as [Hl Hcur]. apply has_id_lookup in Hcur.
  cbn [fst TODOS_FILE RECYCLED_FILE writeTodos]. split; [|done].
  apply (ids_insert _ _ cur); [done|]. unfold task_id.
  rewrite lookup_insert_ne by done.
  rewrite (lookup_union_Some_l _ _ _ (JStr taskId)); [by rewrite Hcur|].
  by rewrite !lookup_insert_ne.
Qed.


Lemma elem_of_delete_other {A} (l : list A) i u x :
  l !! i = Some u → x ∈ l → x ≠ u → x ∈ delete i l.
Proof.
  intros Hl Hx Hne. rewrite (delete_Permutation l i u Hl) in Hx.
  apply elem_of_cons in Hx as [?|?]; done.
Qed.

(** X19: confirming Empty Recycle Bin shows the bin as empty, yet the
    store loses at most one recycled record, and none whose identifier
    is not "cleanup": the request it sends is the cleanup request, which
    the server takes for the purge of the identifier "cleanup".  The
    Active Set is untouched. *)
Theorem emptyBin_keeps_records (e : env) (s : state) :
  (emptyBinBtn_click true e s).2 = true
  ∧ TODOS_FILE (emptyBinBtn_click true e s).1 = TODOS_FILE s
  ∧ (length (RECYCLED_FILE s)
     ≤ S (length (RECYCLED_FILE (emptyBinBtn_click true e s).1)))%nat
  ∧ (∀ t : task, t ∈ RECYCLED_FILE s → ¬ has_id "cleanup" t →
       t ∈ RECYCLED_FILE (emptyBinBtn_click true e s).1).
Proof.
  unfold emptyBinBtn_click. cbn [fst snd].
  unfold ApiService.cleanupRecycleBin, fetch. rewrite cleanup_route_shadowed.
  unfold delete_todo, readRecycled.
  destruct (findIndex "cleanup" (RECYCLED_FILE s)) as [[i u]|] eqn:Hf.
  - apply findIndex_Some in Hf as [Hl Hu].
    cbn [fst TODOS_FILE RECYCLED_FILE writeRecycled]. split_and!; try done.
    + rewrite length_delete by eauto.
      apply lookup_lt_Some in Hl. lia.
    + intros t Ht Hn. apply (elem_of_delete_other _ _ u); [done..|].
      by intros ->.
  - cbn [fst]. split_and!; try done. lia.
Qed.

End Browser.

(** ** The add-task form, and moving and updating in the storage module *)

Section FormsAndStorage.
Import Storage App.



(** X21: [Storage.deleteTask] moves the first active task that answers
    to the identifier to the end of the recycle bin, stamped with
    [deletedAt] and otherwise as it was, and returns the remaining
    active tasks; when no active task answers to the identifier the
    store is left exactly as it was and the active tasks are
    returned. *)
Theorem storage_delete_moves (now : Z) (taskId : string) (ls : localStorage) :
  match list_find (λ t, Storage.has_id taskId t) (getTasks ls) with
  | Some (i, t) =>
      getTasks (Storage.deleteTask now taskId ls).1 = delete i (getTasks ls)
      ∧ getRecycledTasks (Storage.deleteTask now taskId ls).1 =
          getRecycledTasks ls ++ [<["deletedAt" := JStr (toISOString now)]> t]
      ∧ (Storage.deleteTask now taskId ls).2 = delete i (getTasks ls)
  | None => Storage.deleteTask now taskId ls = (ls, getTasks ls)
  end.
Proof.
  unfold Storage.deleteTask.
  destruct (list_find (λ t, Storage.has_id taskId t) (getTasks ls)) as [[i t]|];
    [|done].
  cbn [fst snd].
  by rewrite getTasks_saveTasks, getRecycledTasks_saveTasks,
    getRecycledTasks_insert.
Qed.

(** X22: [Storage.updateTask] replaces, in place, the first active task
    that answers to the identifier by its merge with the update: a field
    the update names holds the update's value, any other field is as it
    was; the recycle bin is untouched.  When no active task answers to
    the identifier nothing is written. *)
Theorem storage_update_merges (taskId : string) (updatedTask : task)
  (ls : localStorage) :
  match list_find (λ t, Storage.has_id taskId t) (getTasks ls) with
  | Some (i, t) =>
      ∃ t' : task,
        getTasks (Storage.updateTask taskId updatedTask ls).1 = <[i := t']> (getTasks ls)
        ∧ (Storage.updateTask taskId updatedTask ls).2 = <[i := t']> (getTasks ls)
        ∧ getRecycledTasks (Storage.updateTask taskId updatedTask ls).1 =
            getRecycledTasks ls
        ∧ (∀ k v, updatedTask !! k = Some v → t' !! k = Some v)
        ∧ (∀ k, updatedTask !! k = None → t' !! k = t !! k)
  | None => Storage.updateTask taskId updatedTask ls = (ls, getTasks ls)
  end.
Proof.
  unfold Storage.updateTask.
  destruct (list_find (λ t, Storage.has_id taskId t) (getTasks ls)) as [[i t]|];
    [|done].
  cbn [fst snd]. eexists. split_and!.
  - by rewrite getTasks_saveTasks.
  - reflexivity.
  - by rewrite getRecycledTasks_saveTasks.
  - intros k v Hk. by apply lookup_union_Some_l.
  - intros k Hk. by apply lookup_union_r.
Qed.

End FormsAndStorage.

(** ** The further properties on the sample data *)

Section FurtherOnSamples.
Import Samples Storage App.

Lemma toggle_twice_witness :
  findIndex "a" (TODOS_FILE desk) = Some (0%nat, plain_a)
  ∧ ∃ t2,
      patch_toggle (at_ "" (T + 2000)) "a"
        (patch_toggle (at_ "" (T + 1000)) "a" desk).1 =
        (mkState (<[0%nat := t2]> (TODOS_FILE desk)) (RECYCLED_FILE desk),
         Json_task 200 t2) ∧
      t2 !! "completed" = Some (JBool (ToBoolean (plain_a !! "completed"))) ∧
      t2 !! "updatedAt" = Some (JStr (toISOString (now (at_ "" (T + 2000))))) ∧
      (∀ k, k ≠ "completed" → k ≠ "updatedAt" → t2 !! k = plain_a !! k).
Proof.
  split; [vm_compute; reflexivity|].
  apply (toggle_twice (at_ "" (T + 1000)) (at_ "" (T + 2000)) "a" desk 0 plain_a).
  vm_compute. reflexivity.
Defined.


Lemma sweep_discards_unstamped_witness :
  let e := mkEnv "" T new_york in
  new_Date (server e) (plain_a !! "deletedAt") = None
  ∧ new_Date utc (plain_a !! "deletedAt") = None
  ∧ ((plain_a ∉ RECYCLED_FILE (delete_cleanup e (mkState [] [plain_a])).1)
     ∧ (plain_a ∉ getRecycledTasks
          (cleanupRecycleBin utc (now e)
             {[ RECYCLED_TASKS_KEY := [plain_a] ]}).1)).
Proof.
  cbv zeta. do 2 (split; [vm_compute; reflexivity|]).
  apply (sweep_discards_unstamped (mkEnv "" T new_york) (mkState [] [plain_a])
           utc {[ RECYCLED_TASKS_KEY := [plain_a] ]} plain_a);
    vm_compute; reflexivity.
Defined.

Lemma deletedAt_kept_in_bin_witness :
  deletedAt_tracks_bin new_york created
  ∧ tidy (at_ "" (T + 1000)) (OpDelete "u1")
  ∧ deletedAt_tracks_bin new_york recycled.
Proof.
  assert (Hc : deletedAt_tracks_bin new_york created).
  { apply (deletedAt_kept_in_bin new_york (at_ "u1" T) (OpCreate buy_milk) init).
    - apply deletedAt_tracks_bin_init.
    - vm_compute. reflexivity. }
  assert (Ht : tidy (at_ "" (T + 1000)) (OpDelete "u1")).
  { unfold tidy, valid_time, at_, T. simpl. lia. }
  split_and!; [exact Hc|exact Ht|].
  apply (deletedAt_kept_in_bin new_york (at_ "" (T + 1000)) (OpDelete "u1")
           created Hc Ht).
Defined.

Lemma recycle_then_purge_witness :
  let s := mkState [buy_milk; plain_a] [] in
  findIndex "a" (TODOS_FILE s) = Some (1%nat, plain_a)
  ∧ ¬ present "a" (RECYCLED_FILE s)
  ∧ delete_todo "a" (patch_recycle (at_ "" T) "a" s).1 =
      (mkState (delete 1%nat (TODOS_FILE s)) (RECYCLED_FILE s),
       Json_task 200
         (<["deletedAt" := JStr (toISOString (now (at_ "" T)))]> plain_a)).
Proof.
  cbv zeta.
  assert (Hn : ¬ present "a" []).
  { intros (t & Hin & _). by apply not_elem_of_nil in Hin. }
  split_and!; [vm_compute; reflexivity|exact Hn|].
  apply (recycle_then_purge (at_ "" T) "a" (mkState [buy_milk; plain_a] [])
           1 plain_a); [vm_compute; reflexivity|exact Hn].
Defined.

Lemma recycled_then_swept_witness :
  let e1 := mkEnv "" (T - retentionWindow - 1800000) new_york in
  let e2 := mkEnv "" T new_york in
  let w := retentionWindow + 3600000 in
  valid_time (now e1)
  ∧ findIndex "a" (TODOS_FILE desk) = Some (0%nat, plain_a)
  ∧ sweepWindow (server e2) (now e2) = Some w
  ∧ ((<["deletedAt" := JStr (toISOString (now e1))]> plain_a
        ∈ RECYCLED_FILE (delete_cleanup e2 (patch_recycle e1 "a" desk).1).1
      ↔ now e2 - now e1 ≤ w)
     ∧ (same_offset (server e2) (now e2) → w = retentionWindow)).
Proof.
  cbv zeta.
  assert (Hv : valid_time (T - retentionWindow - 1800000)).
  { unfold valid_time, T, retentionWindow, msPerDay. lia. }
  split_and!; [exact Hv|vm_compute; reflexivity|vm_compute; reflexivity|..].
  all: apply (recycled_then_swept
                (mkEnv "" (T - retentionWindow - 1800000) new_york)
                (mkEnv "" T new_york) "a" desk 0 plain_a
                (retentionWindow + 3600000) Hv);
    vm_compute; reflexivity.
Defined.

Lemma storage_restoreTask_found_witness :
  list_find (λ t, Storage.has_id "a" t) (getRecycledTasks bin_storage)
    = Some (0%nat, old)
  ∧ (getTasks (restoreTask "a" bin_storage).1 =
       getTasks bin_storage ++ [delete "deletedAt" old]
     ∧ getRecycledTasks (restoreTask "a" bin_storage).1 =
         delete 0%nat (getRecycledTasks bin_storage)
     ∧ (restoreTask "a" bin_storage).2 =
         delete 0%nat (getRecycledTasks bin_storage)
     ∧ (delete "deletedAt" old : task) !! "restoredAt" = old !! "restoredAt").
Proof.
  split; [vm_compute; reflexivity|].
  apply (storage_restoreTask_found "a" bin_storage 0 old).
  vm_compute. reflexivity.
Defined.

Lemma storage_delete_restore_witness :
  list_find (λ t, Storage.has_id "a" t) (getTasks shelf) = Some (0%nat, milk_a)
  ∧ milk_a !! "deletedAt" = None
  ∧ list_find (λ t, Storage.has_id "a" t) (getRecycledTasks shelf) = None
  ∧ (getTasks (restoreTask "a" (Storage.deleteTask T "a" shelf).1).1 =
       delete 0%nat (getTasks shelf) ++ [milk_a]
     ∧ getRecycledTasks (restoreTask "a" (Storage.deleteTask T "a" shelf).1).1 =
         getRecycledTasks shelf).
Proof.
  do 3 (split; [vm_compute; reflexivity|]).
  apply (storage_delete_restore T "a" shelf 0 milk_a); vm_compute; reflexivity.
Defined.

Lemma storage_toggle_twice_witness :
  list_find (λ t, Storage.has_id "a" t) (getTasks shelf) = Some (0%nat, milk_a)
  ∧ milk_a !! "completed" = Some (JBool false)
  ∧ (toggleTaskStatus "a" (toggleTaskStatus "a" shelf).1).1 = shelf.
Proof.
  split_and!; [vm_compute; reflexivity..|].
  apply (storage_toggle_twice "a" shelf 0 milk_a false); vm_compute; reflexivity.
Defined.

Lemma edit_form_keeps_identifiers_witness :
  let e := at_ "" (T + 1000) in
  path_component "a"
  ∧ editTask e "a" desk = Some plain_a
  ∧ (ids (TODOS_FILE
            (updateButton_click e plain_a "a" "Buy bread" "" "home" desk).1)
       = ids (TODOS_FILE desk)
     ∧ RECYCLED_FILE
         (updateButton_click e plain_a "a" "Buy bread" "" "home" desk).1
       = RECYCLED_FILE desk).
Proof.
  cbv zeta. split; [exact I|]. split; [vm_compute; reflexivity|].
  apply (edit_form_keeps_identifiers (at_ "" (T + 1000)) (at_ "" (T + 1000))
           desk desk plain_a "a" "Buy bread" "" "home");
    [exact I|vm_compute; reflexivity].
Defined.

(** White space of every kind is cut off both ends of a title, and a
    title of white space alone is empty. *)
Example trim_unicode :
  trim buy_bread_typed = "Buy bread" ∧ trim (nbsp +:+ " " +:+ nbsp) = "".
Proof. split; vm_compute; reflexivity. Qed.



End FurtherOnSamples.
